(** * tensorx: layers and sparse random noise

    A shallow embedding of [tensorx/layers.py] and [tensorx/random.py].

    Python objects are attribute dictionaries ([gmap string pyval]): an
    assignment [self.a = v] inserts, a read [o.a] looks up and raises
    [AttributeError] when the attribute is absent.  Exceptions are the
    [Raise] case of [result].  A tensor handle of the graph framework is a
    node [PyOp op args]: the operator and the values it was built from.
    Python floats are IEEE binary64 numbers ([spec_float] at precision 53). *)

From Stdlib Require Import ZArith Lia SpecFloat.
From stdpp Require Import base option gmap strings list sorting.

Local Open Scope Z_scope.

(** ** Exceptions and results *)

Inductive exn :=
| AttributeError (attr : string)
| TypeError (msg : string)
| ValueError (msg : string)
| IndexError (msg : string)
| OverflowError (msg : string)
| Exception (msg : string)
| InvalidArgumentError (msg : string).

Inductive result (A : Type) :=
| Ok (a : A)
| Raise (e : exn).
Arguments Ok {A} a.
Arguments Raise {A} e.

#[global] Instance result_ret : MRet result := fun _ a => Ok a.
#[global] Instance result_bind : MBind result := fun _ _ f m =>
  match m with
  | Ok a => f a
  | Raise e => Raise e
  end.

Definition raises {A} (r : result A) : Prop := ∃ e, r = Raise e.

(** ** Python numbers *)

Definition prec : Z := 53.
Definition emax : Z := 1024.

(** The binary64 number nearest to [m * 2^e]. *)
Definition flt (m e : Z) : spec_float := binary_normalize prec emax m e false.

(** [float(z)] of an int: round to nearest even, OverflowError beyond the
    binary64 range. *)
Definition float_of_int (z : Z) : result spec_float :=
  match flt z 0 with
  | S754_infinity _ => Raise (OverflowError "int too large to convert to float")
  | f => Ok f
  end.

(** [int(f)] of a float: truncation towards zero. *)
Definition int_of_float (f : spec_float) : result Z :=
  match f with
  | S754_zero _ => Ok 0
  | S754_finite s m e =>
      let v := if 0 <=? e then Z.pos m * 2 ^ e else Z.pos m / 2 ^ (- e) in
      Ok (if s then - v else v)
  | S754_infinity _ => Raise (OverflowError "cannot convert float infinity to integer")
  | S754_nan => Raise (ValueError "cannot convert float NaN to integer")
  end.

(** Exact comparison of a float with an int, as Python does it; [None] for
    NaN, which is unordered. *)
Definition float_compare_int (f : spec_float) (z : Z) : option comparison :=
  match f with
  | S754_nan => None
  | S754_zero _ => Some (0 ?= z)
  | S754_infinity s => Some (if s then Lt else Gt)
  | S754_finite s m e =>
      let v := if s then Z.neg m else Z.pos m in
      Some (if 0 <=? e then v * 2 ^ e ?= z else v ?= z * 2 ^ (- e))
  end.

(** ** Python values *)

Inductive dtype := float32 | float64 | int32 | int64.

#[global] Instance dtype_eq_dec : EqDecision dtype.
Proof. solve_decision. Defined.

#[warnings="-register-all"] Inductive pyval :=
| PyNone
| PyInt (z : Z)
| PyFloat (f : spec_float)
| PyStr (s : string)
| PyDType (d : dtype)
| PyList (l : list pyval)
| PyOp (op : string) (args : list pyval).

Abbreviation pyobj := (gmap string pyval).

(** Numeric comparison, as the tests [a < b] and [a >= b] of the constructors
    use it: [None] when the operands are unordered (NaN), TypeError when one
    of them is not a number. Comparing a tensor handle builds a tensor, whose
    truth value the framework refuses with TypeError. *)
Definition num_compare (a b : pyval) : result (option comparison) :=
  match a, b with
  | PyInt x, PyInt y => Ok (Some (x ?= y))
  | PyFloat x, PyFloat y => Ok (SFcompare x y)
  | PyFloat x, PyInt y => Ok (float_compare_int x y)
  | PyInt x, PyFloat y => Ok (CompOpp <$> float_compare_int y x)
  | PyOp _ _, _ | _, PyOp _ _ =>
      Raise (TypeError "Using a tf.Tensor as a Python bool is not allowed")
  | _, _ => Raise (TypeError "'<' not supported between these instances")
  end.

(** [a < b] *)
Definition py_lt (a b : pyval) : result bool :=
  c ← num_compare a b;
  Ok (match c with Some Lt => true | _ => false end).

(** [a >= b] *)
Definition py_ge (a b : pyval) : result bool :=
  c ← num_compare a b;
  Ok (match c with Some Gt | Some Eq => true | _ => false end).

(** [a == b]: numbers by value, the other values structurally (a tensor
    handle is equal to itself only). *)
Fixpoint py_eq (a b : pyval) : bool :=
  let fix list_eq (l1 l2 : list pyval) : bool :=
    match l1, l2 with
    | [], [] => true
    | x :: l1, y :: l2 => py_eq x y && list_eq l1 l2
    | _, _ => false
    end in
  match a, b with
  | PyNone, PyNone => true
  | PyInt x, PyInt y => x =? y
  | PyFloat x, PyFloat y => SFeqb x y
  | PyFloat x, PyInt y | PyInt y, PyFloat x =>
      match float_compare_int x y with Some Eq => true | _ => false end
  | PyStr x, PyStr y => bool_decide (x = y)
  | PyDType x, PyDType y => bool_decide (x = y)
  | PyList x, PyList y => list_eq x y
  | PyOp o1 x, PyOp o2 y => bool_decide (o1 = o2) && list_eq x y
  | _, _ => false
  end.

(** [a != b] *)
Definition py_ne (a b : pyval) : bool := negb (py_eq a b).

(** [a * b] on numbers: an int operand is converted to float when the other
    is a float. *)
Definition py_mul (a b : pyval) : result pyval :=
  match a, b with
  | PyInt x, PyInt y => Ok (PyInt (x * y))
  | PyFloat x, PyFloat y => Ok (PyFloat (SFmul prec emax x y))
  | PyFloat x, PyInt y => fy ← float_of_int y; Ok (PyFloat (SFmul prec emax x fy))
  | PyInt x, PyFloat y => fx ← float_of_int x; Ok (PyFloat (SFmul prec emax fx y))
  | _, _ => Raise (TypeError "unsupported operand type(s) for *")
  end.

(** [int(a)] *)
Definition py_int (a : pyval) : result Z :=
  match a with
  | PyInt z => Ok z
  | PyFloat f => int_of_float f
  | _ => Raise (TypeError "int() argument must be a number")
  end.

(** [a + "suffix"]: string concatenation, TypeError for any other left
    operand. *)
Definition py_add_str (a : pyval) (suffix : string) : result pyval :=
  match a with
  | PyStr s => Ok (PyStr (s +:+ suffix))
  | _ => Raise (TypeError "unsupported operand type(s) for +")
  end.

(** [a[i]] for a literal index [i]: list indexing with Python's negative
    indices; indexing a tensor handle builds a slice node. *)
Definition getitem (a : pyval) (i : Z) : result pyval :=
  match a with
  | PyList l =>
      let j := if i <? 0 then i + Z.of_nat (length l) else i in
      if j <? 0 then Raise (IndexError "list index out of range")
      else match l !! Z.to_nat j with
           | Some v => Ok v
           | None => Raise (IndexError "list index out of range")
           end
  | PyOp _ _ => Ok (PyOp "strided_slice" [a; PyInt i])
  | _ => Raise (TypeError "object is not subscriptable")
  end.

(** ** Attribute access *)

(** [o.name] *)
Definition getattr (o : pyobj) (name : string) : result pyval :=
  match o !! name with
  | Some v => Ok v
  | None => Raise (AttributeError name)
  end.

(** [hasattr(o, name)] *)
Definition hasattr (o : pyobj) (name : string) : bool :=
  bool_decide (is_Some (o !! name)).

(** [getattr(o, name, default=d)]: the builtin accepts positional arguments
    only, so the call with a keyword raises TypeError whatever [o] holds. *)
Definition getattr_default_kw (o : pyobj) (name : string) (d : pyval) : result pyval :=
  Raise (TypeError "getattr() takes no keyword arguments").

(** ** Graph operators used by the layers *)

(** Conversion of an operator argument to a tensor: [None] is refused. *)
Definition convert_to_tensor (v : pyval) : result pyval :=
  match v with
  | PyNone => Raise (ValueError "None values not supported.")
  | _ => Ok v
  end.

(** The framework's dtype enumeration ([DType.as_datatype_enum]). *)
Definition as_datatype_enum (d : dtype) : Z :=
  match d with float32 => 1 | float64 => 2 | int32 => 3 | int64 => 9 end.

(** The names under which [dtypes.as_dtype] knows a dtype. *)
Definition dtype_names (d : dtype) : list string :=
  match d with
  | float32 => ["float32"; "float"]
  | float64 => ["float64"; "double"]
  | int32 => ["int32"]
  | int64 => ["int64"]
  end.

Definition all_dtypes : list dtype := [float32; float64; int32; int64].

(** [dtypes.as_dtype(v)] within the dtypes of the model: a [DType] is
    itself; a number is looked up in the enumeration (a float that equals
    the number finds the same entry) and a string among the names; [None]
    stands for the TypeError of a value that denotes no dtype. *)
Definition as_dtype (v : pyval) : option dtype :=
  match v with
  | PyDType d => Some d
  | PyInt z => List.find (λ d, as_datatype_enum d =? z) all_dtypes
  | PyFloat f =>
      List.find (λ d, match float_compare_int f (as_datatype_enum d) with
                      | Some Eq => true
                      | _ => false
                      end) all_dtypes
  | PyStr s => List.find (λ d, bool_decide (s ∈ dtype_names d)) all_dtypes
  | _ => None
  end.

(** [DType.__eq__(d, other)]: [other] is converted with [as_dtype]; a value
    that does not convert is unequal. *)
Definition DType_eq (d : dtype) (other : pyval) : bool :=
  bool_decide (as_dtype other = Some d).

(** [v != d] for a framework dtype [d]: whatever [v] is, the answer is that
    of [DType.__ne__], the negation of [DType.__eq__]. *)
Definition DType_ne (v : pyval) (d : dtype) : bool := negb (DType_eq d v).

(** The names the graph accepts for an operator: a letter, a digit or a dot,
    followed by letters, digits and the characters [_ . - /]. *)
Definition op_name_char (first : bool) (c : Ascii.ascii) : bool :=
  let n := Ascii.nat_of_ascii c in
  ((65 <=? n) && (n <=? 90) || (97 <=? n) && (n <=? 122)
   || (48 <=? n) && (n <=? 57) || (n =? 46)
   || negb first && ((n =? 95) || (n =? 45) || (n =? 47)))%nat.

Fixpoint op_name_tail (s : string) : bool :=
  match s with
  | EmptyString => true
  | String c s => op_name_char false c && op_name_tail s
  end.

Definition valid_op_name (s : string) : bool :=
  match s with
  | EmptyString => false
  | String c s => op_name_char true c && op_name_tail s
  end.

(** A dimension of a static shape: [None] or an int that is not negative. *)
Definition as_dimension (v : pyval) : result unit :=
  match v with
  | PyNone => Ok ()
  | PyInt z => if z <? 0 then Raise (ValueError "Dimension must be >= 0") else Ok ()
  | _ => Raise (TypeError "Dimension value must be integer or None")
  end.

Fixpoint as_dimensions (l : list pyval) : result unit :=
  match l with
  | [] => Ok ()
  | v :: l => _ ← as_dimension v; as_dimensions l
  end.

(** [array_ops.placeholder(dtype, shape=shape, name=name)]: the operator is
    named first, then its dtype and shape attributes are converted. The
    framework refuses a name the graph does not accept, a [dtype] that
    denotes no dtype and a negative dimension; the node keeps the arguments
    as they were given. *)
Definition array_ops_placeholder (dt shape name : pyval) : result pyval :=
  _ ← match name with
      | PyNone => Ok ()
      | PyStr s => if valid_op_name s then Ok ()
                   else Raise (ValueError "not a valid scope name")
      | _ => Raise (TypeError "expected string or bytes-like object")
      end;
  _ ← match as_dtype dt with
      | Some _ => Ok ()
      | None => Raise (TypeError "Cannot convert value to a TensorFlow DType")
      end;
  _ ← match shape with
      | PyNone => Ok ()
      | PyList dims => as_dimensions dims
      | _ => Raise (TypeError "shape must be a list of dimensions")
      end;
  Ok (PyOp "placeholder" [dt; shape; name]).

Definition array_ops_shape (t : pyval) : result pyval :=
  t ← convert_to_tensor t; Ok (PyOp "shape" [t]).

Definition random_ops_random_normal (shape mean stddev seed dt : pyval) : pyval :=
  PyOp "random_normal" [shape; mean; stddev; seed; dt].

Definition math_ops_add (x y : pyval) : result pyval :=
  x ← convert_to_tensor x; y ← convert_to_tensor y; Ok (PyOp "add" [x; y]).

(** [tensorx.transform.to_sparse] is not among the sources; its two results
    are kept as graph nodes over its argument. *)
Definition to_sparse (t : pyval) : pyval * pyval :=
  (PyOp "to_sparse.indices" [t], PyOp "to_sparse.values" [t]).

Definition zero_float : pyval := PyFloat (S754_zero false).

(** ** layers.py *)

Module Layer.

(** [Layer.__init__(self, n_units, shape, dense_shape, dtype, name)]; the
    attribute dictionary of the constructed object is returned. *)
Definition __init__ (n_units shape dense_shape dt name : pyval) : result pyobj :=
  let self : pyobj := <["n_units" := n_units]> ∅ in
  let self := <["name" := name]> self in
  let self := <["dtype" := dt]> self in
  let self :=
    match shape with
    | PyNone => <["shape" := PyList [PyNone; n_units]]> self
    | _ => <["shape" := shape]> self
    end in
  self ←
    match dense_shape with
    | PyNone =>
        s ← getattr self "shape";
        Ok (<["dense_sape" := s]> self)
    | _ =>
        d1 ← getitem dense_shape 1;
        lt ← py_lt d1 n_units;
        if lt : bool then Raise (Exception "Shape mismatch: dense_shape[1] < n_units")
        else
          d0 ← getitem dense_shape 0;
          s ← getattr self "shape";
          s0 ← getitem s 0;
          if py_ne d0 s0
          then Raise (Exception "Shape mismatch: dense_shape[0] != self.shape[0]")
          else Ok (<["dense_sape" := dense_shape]> self)
    end;
  Ok (<["y" := PyNone]> self).

End Layer.

Module Input.

(** [Input(n_units, n_active=None, batch_size=None, dtype=float32,
    name="input")] *)
Definition __init__ (n_units n_active batch_size dt name : pyval) : result pyobj :=
  too_many ←
    match n_active with
    | PyNone => Ok false
    | _ => py_ge n_active n_units
    end;
  if too_many : bool then Raise (ValueError "n_active must be < n_units")
  else
    let dense_shape := PyList [batch_size; n_units] in
    shape ←
      match n_active with
      | PyNone => Ok (PyList [batch_size; n_units])
      | _ =>
          if DType_ne dt int64
          then Raise (TypeError "If n_active is not None, dtype must be set to dt.int64")
          else Ok (PyList [batch_size; n_active])
      end;
    self ← Layer.__init__ n_units shape dense_shape dt name;
    d ← getattr self "dtype";
    s ← getattr self "shape";
    n ← getattr self "name";
    y ← array_ops_placeholder d s n;
    Ok (<["y" := y]> self).

End Input.

(** The arguments every wrapping layer passes to [Layer.__init__]:
    [layer.n_units, layer.shape, layer.dense_shape, layer.dtype,
    layer.name + suffix], read in this order. *)
Definition super_init_of (layer : pyobj) (suffix : string) : result pyobj :=
  n ← getattr layer "n_units";
  s ← getattr layer "shape";
  d ← getattr layer "dense_shape";
  t ← getattr layer "dtype";
  nm ← getattr layer "name";
  nm ← py_add_str nm suffix;
  Layer.__init__ n s d t nm.

Module Linear.

(** The first statement of [Linear.__init__]:
    [shape = [layer.dense_shape[0], n_units]]. *)
Definition shape (layer : pyobj) (n_units : pyval) : result pyval :=
  d ← getattr layer "dense_shape";
  d0 ← getitem d 0;
  Ok (PyList [d0; n_units]).

End Linear.

Module ToSparse.

(** [ToSparse(layer)] *)
Definition __init__ (layer : pyobj) : result pyobj :=
  self ← super_init_of layer "_sparse";
  y ← getattr layer "y";
  let '(sp_indices, sp_values) := to_sparse y in
  let self := <["sp_indices" := sp_indices]> self in
  let self := <["sp_values" := sp_values]> self in
  Ok self.

End ToSparse.

Module GaussianNoise.

(** [GaussianNoise(layer, noise_amount=0.1, stddev=0.2, seed=None)] *)
Definition __init__ (layer : pyobj) (noise_amount stddev seed : pyval) : result pyobj :=
  self ← super_init_of layer "_noise";
  let self := <["noise_amount" := noise_amount]> self in
  let self := <["stddev" := stddev]> self in
  let self := <["seed" := seed]> self in
  if py_eq noise_amount zero_float then
    y ← getattr layer "y";
    Ok (<["y" := y]> self)
  else
    ly ← getattr layer "y";
    shp ← array_ops_shape ly;
    sd ← getattr self "stddev";
    let noise := random_ops_random_normal shp zero_float sd seed (PyDType float32) in
    sy ← getattr self "y";
    y ← math_ops_add sy noise;
    Ok (<["y" := y]> self).

End GaussianNoise.

Module SaltPepperNoise.

(** [SaltPepperNoise(layer, noise_amount=0.1, max_value=1, min_value=0,
    seed=None)] *)
Definition __init__ (layer : pyobj) (noise_amount max_value min_value seed : pyval)
  : result pyobj :=
  self ← super_init_of layer "_noise";
  let self := <["noise_amount" := noise_amount]> self in
  let self := <["seed" := seed]> self in
  if py_eq noise_amount zero_float then
    y ← getattr layer "y";
    Ok (<["y" := y]> self)
  else
    n ← getattr layer "n_units";
    p ← py_mul n noise_amount;
    num_noise ← py_int p;
    s ← getattr self "shape";
    batch_size ← getitem s 0;
    if hasattr layer "sp_indices" then
      indices ← getattr layer "sp_indices";
      values ← getattr_default_kw layer "sp_values" PyNone;
      Ok (<["y" := PyNone]> self)
    else
      ls ← getattr layer "shape";
      ld ← getattr layer "dense_shape";
      if py_eq ls ld then Ok self else Ok self.

End SaltPepperNoise.

(** ** layers.py, the other constructors *)

(** The truth value [if v:] tests. [False] and [True] of Python are the ints
    0 and 1; the truth value of a tensor handle is refused. *)
Definition py_truth (v : pyval) : result bool :=
  match v with
  | PyNone => Ok false
  | PyInt z => Ok (negb (z =? 0))
  | PyFloat f => Ok (negb (SFeqb f (S754_zero false)))
  | PyStr s => Ok (negb (bool_decide (s = "")))
  | PyList l => Ok (negb (bool_decide (l = [])))
  | PyDType _ => Ok true
  | PyOp _ _ => Raise (TypeError "Using a tf.Tensor as a Python bool is not allowed")
  end.

(** [ops.convert_to_tensor(l, dtype=dtypes.int64)] of a Python list: every
    entry has to be an int or a tensor. *)
Definition convert_to_int64_tensor (l : list pyval) : result pyval :=
  if forallb (fun v => match v with PyInt _ | PyOp _ _ => true | _ => false end) l
  then Ok (PyOp "convert_to_tensor" [PyList l; PyDType int64])
  else Raise (TypeError "Failed to convert object of type list to Tensor").

Definition array_ops_sparse_placeholder (dt shape name : pyval) : pyval :=
  PyOp "sparse_placeholder" [dt; shape; name].

Definition math_ops_matmul (a b : pyval) : result pyval :=
  a ← convert_to_tensor a; b ← convert_to_tensor b; Ok (PyOp "matmul" [a; b]).

Definition embedding_lookup (params ids name : pyval) : result pyval :=
  params ← convert_to_tensor params; ids ← convert_to_tensor ids;
  Ok (PyOp "embedding_lookup" [params; ids; name]).

Definition math_ops_reduce_sum (t : pyval) (axis : Z) : result pyval :=
  t ← convert_to_tensor t; Ok (PyOp "reduce_sum" [t; PyInt axis]).

Definition bias_add (value bias name : pyval) : result pyval :=
  value ← convert_to_tensor value; bias ← convert_to_tensor bias;
  Ok (PyOp "bias_add" [value; bias; name]).

Definition math_ops_scalar_mul (scalar x : pyval) : result pyval :=
  scalar ← convert_to_tensor scalar; x ← convert_to_tensor x;
  Ok (PyOp "scalar_mul" [scalar; x]).

(** [vscope.get_variable(name, initializer=...)] inside
    [variable_scope(scope)]. *)
Definition get_variable (scope : pyval) (name : string) (initializer : pyval) : pyval :=
  PyOp "get_variable" [scope; PyStr name; initializer].

Definition array_ops_zeros (shape : pyval) : pyval := PyOp "zeros" [shape].

(** [(_, s) = v]: [v] has to be a sequence of two entries. *)
Definition unpack2 (v : pyval) : result (pyval * pyval) :=
  match v with
  | PyList [a; b] => Ok (a, b)
  | PyList _ => Raise (ValueError "wrong number of values to unpack")
  | _ => Raise (TypeError "cannot unpack non-iterable object")
  end.

Module SparseInput.

(** [SparseInput(n_units, n_active, values=False, batch_size=None,
    dtype=float32, name="index_input")] *)
Definition __init__ (n_units n_active values batch_size dt name : pyval) : result pyobj :=
  let shape := PyList [batch_size; n_active] in
  dense_shape ← convert_to_int64_tensor [batch_size; n_units];
  self ← Layer.__init__ n_units shape dense_shape dt name;
  let self := <["n_active" := n_active]> self in
  let self := <["values" := values]> self in
  d ← getattr self "dense_sape";
  let self := <["indices" := array_ops_sparse_placeholder (PyDType int64) d name]> self in
  b ← py_truth values;
  self ←
    (if b : bool then
       d ← getattr self "dense_sape";
       nm ← py_add_str name "_values";
       Ok (<["values" := array_ops_sparse_placeholder dt d nm]> self)
     else Ok (<["values" := PyNone]> self));
  i ← getattr self "indices";
  v ← getattr self "values";
  d ← getattr self "dense_sape";
  Ok (<["y" := PyOp "SparseTensor" [i; v; d]]> self).

End SparseInput.

Section Linear_init.

(** [weights.get_shape()], the static shape of a tensor as the framework
    infers it. *)
Variable get_shape : pyval → result pyval.

(** The initializer [init(shape)]; [tensorx.init.random_uniform], the
    default, is not among the sources. *)
Variable init : pyval → result pyval.

(** [Linear(layer, n_units, init, weights=None, bias=False, dtype=float32,
    name="linear")]. The call [super().__init__(n_units, shape, dtype, name)]
    binds [dtype] to the parameter [dense_shape] of [Layer.__init__] and
    [name] to its parameter [dtype]; its parameter [name] keeps the default
    ["layer"]. *)
Definition Linear__init__ (layer : pyobj) (n_units weights bias dt name : pyval)
  : result pyobj :=
  shape ← Linear.shape layer n_units;
  self ← Layer.__init__ n_units shape dt name (PyStr "layer");
  _ ← match weights with
      | PyNone => Ok tt
      | _ =>
          sh ← get_shape weights;
          '(_, s) ← unpack2 sh;
          if py_ne s n_units
          then Raise (ValueError "shape mismatch: layer expects (,{}), weights have (,{})")
          else Ok tt
      end;
  self ←
    match weights with
    | PyNone =>
        ss ← getattr self "shape";
        w ← init ss;
        Ok (<["weights" := get_variable name "w" w]> self)
    | _ => Ok (<["weights" := weights]> self)
    end;
  self ←
    (if hasattr layer "sp_indices" then
       indices ← getattr layer "sp_indices";
       values ← getattr_default_kw layer "sp_values" PyNone;
       w ← getattr self "weights";
       nm ← getattr self "name";
       nm ← py_add_str nm "_embeddings";
       Ok (<["y" := PyOp "embedding_lookup_sparse" [w; indices; values; PyStr "sum"; nm]]> self)
     else
       ls ← getattr layer "shape";
       ld ← getattr layer "dense_shape";
       if py_eq ls ld then
         ly ← getattr layer "y";
         w ← getattr self "weights";
         y ← math_ops_matmul ly w;
         Ok (<["y" := y]> self)
       else
         w ← getattr self "weights";
         ids ← getattr layer "y";
         nm ← getattr self "name";
         nm ← py_add_str nm "_embeddings";
         lookup ← embedding_lookup w ids nm;
         y ← math_ops_reduce_sum lookup 1;
         Ok (<["y" := y]> self));
  b ← py_truth bias;
  if b : bool then
    n ← getattr self "n_units";
    let self := <["bias" := get_variable name "b" (array_ops_zeros (PyList [n]))]> self in
    sy ← getattr self "y";
    sb ← getattr self "bias";
    y ← bias_add sy sb (PyStr "a");
    Ok (<["y" := y]> self)
  else Ok self.

End Linear_init.

Section Bias_init.

(** [str(v)], as [str.format] renders a value. *)
Variable str_of : pyval → string.

(** ["{}_{}".format(a, b)] *)
Definition format_pair (a b : pyval) : pyval := PyStr (str_of a +:+ "_" +:+ str_of b).

(** [Bias(layer, name="bias")]. The statement
    [bias_name = layer.dtype, "{}_{}".format(layer.name, name)] builds a
    pair, which the call of [Layer.__init__] receives as [dense_shape]. *)
Definition Bias__init__ (layer : pyobj) (name : pyval) : result pyobj :=
  t ← getattr layer "dtype";
  nm ← getattr layer "name";
  let bias_name := PyList [t; format_pair nm name] in
  n ← getattr layer "n_units";
  s ← getattr layer "shape";
  self ← Layer.__init__ n s bias_name (PyDType float32) (PyStr "layer");
  scope ← getattr self "name";
  n ← getattr self "n_units";
  let self := <["bias" := get_variable scope "b" (array_ops_zeros (PyList [n]))]> self in
  lt ← getattr layer "tensor";
  sb ← getattr self "bias";
  t ← bias_add lt sb (PyStr "output");
  Ok (<["tensor" := t]> self).

End Bias_init.

(** ** random.py

    The framework's operators are taken at their run-time meaning: a dense
    tensor is the list of its rows, and the random operators thread the
    state of the framework's generator. *)

(** State of the generator and exceptions. *)
Definition M (S A : Type) : Type := S → result (A * S).

#[global] Instance M_ret {S} : MRet (M S) := fun _ a g => Ok (a, g).
#[global] Instance M_bind {S} : MBind (M S) := fun _ _ f m g =>
  match m g with
  | Ok (a, g') => f a g'
  | Raise e => Raise e
  end.

Definition lift {S A} (r : result A) : M S A := fun g =>
  match r with
  | Ok a => Ok (a, g)
  | Raise e => Raise e
  end.

(** A tensor of ints: rank 1, or rank 2 as the list of its rows. *)
Inductive itensor :=
| Vec (l : list Z)
| Mat (rows : list (list Z)).

(** A rank-2 tensor of values. An entry is kept as the Python constant it
    was filled with; [t_dtype] records the representation it is held in. *)
Record tensor := mkTensor { t_dtype : dtype; t_rows : list (list pyval) }.

(** A scalar tensor. *)
Record scalar := mkScalar { s_dtype : dtype; s_value : pyval }.

Record SparseTensor := mkSparseTensor {
  sp_indices : list (Z * Z);
  sp_values : list pyval;
  sp_dtype : dtype;
  sp_dense_shape : list Z
}.

(** The dtype the framework infers for a Python number. *)
Definition scalar_of_py (v : pyval) : result scalar :=
  match v with
  | PyInt _ => Ok (mkScalar int32 v)
  | PyFloat _ => Ok (mkScalar float32 v)
  | _ => Raise (TypeError "Failed to convert object to Tensor")
  end.

(** [l[i]] on a Python list of ints, for a literal index [i >= 0]. *)
Definition list_getitem {A} (l : list A) (i : nat) : result A :=
  match l !! i with
  | Some v => Ok v
  | None => Raise (IndexError "list index out of range")
  end.

(** [tf.range(lo, hi)] *)
Definition tf_range (lo hi : Z) : list Z :=
  (fun i : nat => lo + Z.of_nat i) <$> seq 0 (Z.to_nat (hi - lo)).

(** [range(n)] *)
Definition py_range (n : Z) : list Z := Z.of_nat <$> seq 0 (Z.to_nat n).

(** [tf.map_fn(fn, elems)]: [fn] runs once per element, in order. *)
Fixpoint map_fn {S A B} (fn : A → M S B) (elems : list A) : M S (list B) :=
  match elems with
  | [] => mret []
  | x :: elems => y ← fn x; ys ← map_fn fn elems; mret (y :: ys)
  end.

(** [array_ops.fill([n, w], value)] *)
Definition array_ops_fill (n w : Z) (value : scalar) : result tensor :=
  if (n <? 0) || (w <? 0) then Raise (ValueError "Dimension must be >= 0")
  else Ok (mkTensor (s_dtype value)
             (replicate (Z.to_nat n) (replicate (Z.to_nat w) (s_value value)))).

(** Row-wise concatenation of rank-2 tensors with the same number of rows. *)
Fixpoint concat_rows (ts : list (list (list pyval))) : list (list pyval) :=
  match ts with
  | [] => []
  | [t] => t
  | t :: ts => zip_with app t (concat_rows ts)
  end.

(** [array_ops.concat(ts, axis=-1)] *)
Definition array_ops_concat (ts : list tensor) : result tensor :=
  match ts with
  | [] => Raise (ValueError "List argument 'values' to 'ConcatV2' Op with length 0")
  | t :: ts' =>
      if forallb (fun t' => bool_decide (t_dtype t' = t_dtype t)) ts'
      then if forallb (fun t' => length (t_rows t') =? length (t_rows t))%nat ts'
           then Ok (mkTensor (t_dtype t) (concat_rows (t_rows <$> ts)))
           else Raise (InvalidArgumentError "Dimension 0 in both shapes must be equal")
      else Raise (TypeError "Tensors in list passed to 'values' of 'ConcatV2' Op have types that don't all match")
  end.

(** [array_ops.reshape(t, [-1])]: the rows one after the other. *)
Definition array_ops_reshape_flat (t : tensor) : dtype * list pyval :=
  (t_dtype t, concat (t_rows t)).

(** [tensor_shape.as_shape([n])] *)
Definition as_shape (n : Z) : result Z :=
  if n <? 0 then Raise (ValueError "Dimension must be >= 0") else Ok n.

(** Modelled from the spec: [tensorx.transform.enum_row] is not among the
    sources. A sparse tensor is an (indices, values, dense_shape) triple and
    the callers lay its values out row after row, so [enum_row] turns a
    rank-2 tensor of column numbers into the (row, column) index pairs, row
    after row. *)
Definition enum_row (t : itensor) : result (list (Z * Z)) :=
  match t with
  | Mat rows => Ok (concat (imap (fun r row => (fun c => (Z.of_nat r, c)) <$> row) rows))
  | Vec _ => Raise (ValueError "enum_row expects a rank-2 tensor")
  end.

(** Row-major order on index pairs. *)
Definition index_le (a b : (Z * Z) * pyval) : Prop :=
  a.1.1 < b.1.1 ∨ (a.1.1 = b.1.1 ∧ a.1.2 ≤ b.1.2).

#[global] Instance index_le_dec a b : Decision (index_le a b).
Proof. unfold index_le. apply _. Defined.

(** [SparseTensor(indices, values, dense_shape)] followed by
    [sparse_ops.sparse_reorder]: the entries in row-major order. *)
Definition sparse_reorder (sp : SparseTensor) : result SparseTensor :=
  if (length (sp_indices sp) =? length (sp_values sp))%nat then
    let entries := merge_sort index_le (zip (sp_indices sp) (sp_values sp)) in
    Ok (mkSparseTensor (fst <$> entries) (snd <$> entries) (sp_dtype sp) (sp_dense_shape sp))
  else Raise (InvalidArgumentError "indices and values differ in their number of entries").

(** The values held in row [r] of a sparse tensor. *)
Definition row_values (sp : SparseTensor) (r : Z) : list pyval :=
  snd <$> filter (fun e : (Z * Z) * pyval => e.1.1 = r) (zip (sp_indices sp) (sp_values sp)).

Section random.

(** The state of the framework's random number generator. *)
Variable rng : Type.

(** [tf.nn.uniform_candidate_sampler(true_classes, num_true, num_sampled,
    unique, range_max, seed)], first output. *)
Variable uniform_candidate_sampler :
  list (list Z) → Z → Z → bool → Z → option Z → M rng (list Z).

(** [random_ops.random_shuffle(values, seed)] *)
Variable random_shuffle : list pyval → option Z → M rng (list pyval).

(** [random_ops.random_normal(shape=[n], mean, stddev, dtype, seed)] *)
Variable random_normal : Z → pyval → pyval → dtype → option Z → M rng (list pyval).

(** [_sample(range_max, num_sampled, unique, seed)]. The arguments are
    Python ints, so the [is_tensor] conversions of the source do not apply. *)
Definition _sample (range_max num_sampled : Z) (unique : bool) (seed : option Z)
  : M rng (list Z) :=
  uniform_candidate_sampler [[0]] 1 num_sampled unique range_max seed.

(** [sample(range_max, num_sampled, batch_size, unique, seed)]. The batched
    branch calls [_sample(range_max, num_sampled)], with the defaults
    [unique=True] and [seed=None]. *)
Definition sample (range_max num_sampled : Z) (batch_size : option Z)
    (unique : bool) (seed : option Z) : M rng itensor :=
  match batch_size with
  | None => c ← _sample range_max num_sampled unique seed; mret (Vec c)
  | Some b =>
      let i := tf_range 0 b in
      let fn_sample (_ : Z) := _sample range_max num_sampled true None in
      rows ← map_fn fn_sample i; mret (Mat rows)
  end.

(** [sparse_random_normal(dense_shape, density, mean, stddev, dtype, seed)] *)
Definition sparse_random_normal (dense_shape : list Z) (density mean stddev : pyval)
    (dt : dtype) (seed : option Z) : M rng SparseTensor :=
  m ← lift (list_getitem dense_shape 1);
  p ← lift (py_mul density (PyInt m));
  num_noise ← lift (py_int p);
  let num_noise := Z.max num_noise 1 in
  range_max ← lift (list_getitem dense_shape 1);
  batch_size ← lift (list_getitem dense_shape 0);
  flat_indices ← sample range_max num_noise (Some batch_size) true seed;
  indices ← lift (enum_row flat_indices);
  n ← lift (list_getitem dense_shape 0);
  value_shape ← lift (as_shape (n * num_noise));
  values ← random_normal value_shape mean stddev dt seed;
  let sp_tensor := mkSparseTensor indices values dt dense_shape in
  lift (sparse_reorder sp_tensor).

(** [salt_pepper_noise(dense_shape, density, max_value, min_value, seed,
    dtype)]; [None] of Python is [None] of [option]. The cast to [dtype]
    changes the representation the values are held in. *)
Definition salt_pepper_noise (dense_shape : list Z) (density max_value min_value : pyval)
    (seed : option Z) (dt : dtype) : M rng (option SparseTensor) :=
  m ← lift (list_getitem dense_shape 1);
  p ← lift (py_mul density (PyInt m));
  num_noise ← lift (py_int p);
  let num_noise := if num_noise <? 2 then 0 else num_noise in
  if num_noise =? 0 then mret None
  else
    let num_salt := num_noise `div` 2 in
    let num_pepper := num_salt in
    let num_noise := num_salt + num_pepper in
    batch_size ← lift (list_getitem dense_shape 0);
    max_range ← lift (list_getitem dense_shape 1);
    samples ← sample max_range num_noise (Some batch_size) true seed;
    indices ← lift (enum_row samples);
    d0 ← lift (list_getitem dense_shape 0);
    d1 ← lift (list_getitem dense_shape 1);
    let dense_shape := [d0; d1] in
    salt ← lift (scalar_of_py max_value);
    salt_tensor ← lift (array_ops_fill batch_size num_salt salt);
    pepper ← lift (scalar_of_py min_value);
    pepper_tensor ← lift (array_ops_fill batch_size num_pepper pepper);
    values ← lift (array_ops_concat [salt_tensor; pepper_tensor]);
    let '(values_dtype, values) := array_ops_reshape_flat values in
    let values_dtype := if bool_decide (values_dtype ≠ dt) then dt else values_dtype in
    let sp_tensor := mkSparseTensor indices values values_dtype dense_shape in
    sp_tensor ← lift (sparse_reorder sp_tensor);
    mret (Some sp_tensor).

(** The number of row entries the [i]-th value fills, as the loop of
    [sparse_random_mask] computes it. *)
Definition num_vi_corrupted (total_corrupted num_values i : Z) : Z :=
  let num_vi_corrupted := total_corrupted `div` num_values in
  if i =? num_values - 1
  then total_corrupted - num_vi_corrupted * (num_values - 1)
  else num_vi_corrupted.

(** The body of the loop over [range(num_values)]: one filled tensor per
    value is appended to [value_tensors]. *)
Fixpoint value_tensors_loop (idxs : list Z) (mdt : dtype) (mask_values : list pyval)
    (total_corrupted num_values n : Z) (value_tensors : list tensor)
  : result (list tensor) :=
  match idxs with
  | [] => Ok value_tensors
  | i :: idxs =>
      let w := num_vi_corrupted total_corrupted num_values i in
      v ← list_getitem mask_values (Z.to_nat i);
      vi_tensor ← array_ops_fill n w (mkScalar mdt v);
      value_tensors_loop idxs mdt mask_values total_corrupted num_values n
        (value_tensors ++ [vi_tensor])
  end.

(** The dtype of the tensor a Python list of numbers converts to. *)
Definition dtype_of_list (l : list pyval) : result dtype :=
  if forallb (fun v => match v with PyInt _ => true | _ => false end) l then Ok int32
  else if forallb (fun v => match v with PyInt _ | PyFloat _ => true | _ => false end) l
       then Ok float32
       else Raise (TypeError "Failed to convert object to Tensor").

(** [sparse_random_mask(dense_shape, density, mask_values, dtype, seed)] *)
Definition sparse_random_mask (dense_shape : list Z) (density : pyval)
    (mask_values : list pyval) (dt : dtype) (seed : option Z) : M rng SparseTensor :=
  let num_values := Z.of_nat (length mask_values) in
  m ← lift (list_getitem dense_shape 1);
  p ← lift (py_mul density (PyInt m));
  total_corrupted ← lift (py_int p);
  mdt ← lift (dtype_of_list mask_values);
  mask_values ← random_shuffle mask_values seed;
  range_max ← lift (list_getitem dense_shape 1);
  batch_size ← lift (list_getitem dense_shape 0);
  samples ← sample range_max total_corrupted (Some batch_size) true seed;
  indices ← lift (enum_row samples);
  value_tensors ← lift (value_tensors_loop (py_range num_values) mdt mask_values
                          total_corrupted num_values batch_size []);
  values ← lift (array_ops_concat value_tensors);
  let '(values_dtype, values) := array_ops_reshape_flat values in
  let values_dtype := if bool_decide (values_dtype ≠ dt) then dt else values_dtype in
  d0 ← lift (list_getitem dense_shape 0);
  d1 ← lift (list_getitem dense_shape 1);
  let dense_shape := [d0; d1] in
  let sp_tensor := mkSparseTensor indices values values_dtype dense_shape in
  lift (sparse_reorder sp_tensor).

End random.

(** ** layers.py, [Merge] *)

(** An entry of the list [Merge] hands to [merge_fn]: a layer object, or
    the tensor the weighting put in its place. *)
Inductive merge_arg :=
| MLayer (layer : pyobj)
| MTensor (t : pyval).

(** The loop [for i in range(len(layers)): layers[i] =
    scalar_mul(weights[i], layers[i].output)]: the entries from position
    [length done] on are still layers. *)
Fixpoint weight_layers (weights : list pyval) (done : list merge_arg) (todo : list pyobj)
  : result (list merge_arg) :=
  match todo with
  | [] => Ok done
  | layer :: todo =>
      w ← list_getitem weights (length done);
      out ← getattr layer "output";
      t ← math_ops_scalar_mul w out;
      weight_layers weights (done ++ [MTensor t]) todo
  end.

Section Merge_init.

(** The merging function, [math_ops.add_n] by default. *)
Variable merge_fn : list merge_arg → result pyval.

(** [Merge(layers, weights=None, merge_fn, name="merge")] *)
Definition Merge__init__ (layers : list pyobj) (weights : option (list pyval)) (name : pyval)
  : result pyobj :=
  if (length layers <? 2)%nat
  then Raise (Exception "Expecting a list of layers with len >= 2")
  else if match weights with
          | Some w => negb (length w =? length layers)%nat
          | None => false
          end
  then Raise (Exception "len(weights) must be equals to len(layers)")
  else
    l0 ← list_getitem layers 0; n ← getattr l0 "n_units";
    l0 ← list_getitem layers 0; s ← getattr l0 "shape";
    l0 ← list_getitem layers 0; d ← getattr l0 "dense_shape";
    l0 ← list_getitem layers 0; t ← getattr l0 "dtype";
    self ← Layer.__init__ n s d t name;
    args ← match weights with
           | Some w => weight_layers w [] layers
           | None => Ok (MLayer <$> layers)
           end;
    y ← merge_fn args;
    Ok (<["y" := y]> self).

End Merge_init.

(** ** A reference instance of the framework's random operators

    A deterministic generator, used to run the functions above on concrete
    inputs: the sampler counts down from [range_max - 1], the shuffle
    reverses, and the normal draws are all equal to the mean. The state
    counts the draws. *)

Definition ref_sampler (true_classes : list (list Z)) (num_true num_sampled : Z)
    (unique : bool) (range_max : Z) (seed : option Z) : M nat (list Z) := fun g =>
  if (num_sampled <? 1) || (range_max <? 1)
  then Raise (ValueError "Attr passed is less than minimum 1")
  else if unique && (range_max <? num_sampled)
       then Raise (InvalidArgumentError "Sampler's range is too small.")
       else Ok ((fun i : nat => (range_max - 1 - Z.of_nat i) `mod` range_max)
                  <$> seq 0 (Z.to_nat num_sampled), S g).

Definition ref_shuffle (values : list pyval) (seed : option Z) : M nat (list pyval) :=
  fun g => Ok (reverse values, S g).

Definition ref_normal (n : Z) (mean stddev : pyval) (dt : dtype) (seed : option Z)
  : M nat (list pyval) :=
  fun g => Ok (replicate (Z.to_nat n) mean, S g).

(** ** Vocabulary of the properties *)

(** The value [Layer.__init__] binds to [self.shape]. *)
Definition self_shape (n_units shape : pyval) : pyval :=
  match shape with
  | PyNone => PyList [PyNone; n_units]
  | _ => shape
  end.

(** The object [Layer.__init__] builds when it returns. *)
Definition layer_object (n_units shape dense dt name : pyval) : pyobj :=
  <["y" := PyNone]> (<["dense_sape" := dense]> (<["shape" := self_shape n_units shape]>
    (<["dtype" := dt]> (<["name" := name]> (<["n_units" := n_units]> ∅))))).

(** An input object that exposes every attribute the noise layers read:
    what a layer would be had the constructor stored [dense_shape]. *)
Definition exposed_layer : pyobj :=
  <["y" := PyOp "placeholder" [PyDType float32; PyList [PyNone; PyInt 4]; PyStr "input"]]>
    (<["name" := PyStr "input"]> (<["dtype" := PyDType float32]>
      (<["dense_shape" := PyList [PyNone; PyInt 4]]> (<["shape" := PyList [PyNone; PyInt 4]]>
        (<["n_units" := PyInt 4]> ∅))))).

(** The same object with sparse indices and values. *)
Definition exposed_sparse_layer : pyobj :=
  <["sp_values" := PyOp "to_sparse.values" []]>
    (<["sp_indices" := PyOp "to_sparse.indices" []]> exposed_layer).

(** What a draw without replacement is: [num_sampled] pairwise distinct
    indices of the range [0, range_max). *)
Definition unique_row (range_max num_sampled : Z) (l : list Z) : Prop :=
  length l = Z.to_nat num_sampled ∧ NoDup l ∧ Forall (fun x => 0 ≤ x < range_max) l.

(** The framework's contract for the sampler with [unique=True]: it draws
    without replacement, and does so whenever the range is large enough. *)
Definition sampler_contract {rng : Type}
    (sampler : list (list Z) → Z → Z → bool → Z → option Z → M rng (list Z)) : Prop :=
  (∀ num range seed g l g',
     sampler [[0]] 1 num true range seed g = Ok (l, g') → unique_row range num l) ∧
  (∀ num range seed g,
     1 ≤ num ≤ range → ∃ l g', sampler [[0]] 1 num true range seed g = Ok (l, g')).

(** The framework's contract for the shuffle: a permutation of its
    argument, always returned. *)
Definition shuffle_contract {rng : Type}
    (shuffle : list pyval → option Z → M rng (list pyval)) : Prop :=
  (∀ vs seed g vs' g', shuffle vs seed g = Ok (vs', g') → vs' ≡ₚ vs) ∧
  (∀ vs seed g, ∃ vs' g', shuffle vs seed g = Ok (vs', g')).

(** The framework's contract for normal draws of shape [[n]]: [n] values,
    returned whenever [n] is a dimension. *)
Definition normal_contract {rng : Type}
    (normal : Z → pyval → pyval → dtype → option Z → M rng (list pyval)) : Prop :=
  (∀ n mean stddev dt seed g l g',
     normal n mean stddev dt seed g = Ok (l, g') → length l = Z.to_nat n) ∧
  (∀ n mean stddev dt seed g,
     0 ≤ n → ∃ l g', normal n mean stddev dt seed g = Ok (l, g')).

(** Identity of values, decided structurally. *)
#[global] Instance spec_float_eq_dec : EqDecision spec_float.
Proof. solve_decision. Defined.

Fixpoint pyval_eq_dec (a b : pyval) : {a = b} + {a ≠ b}.
Proof.
  refine (
    match a, b with
    | PyNone, PyNone => left eq_refl
    | PyInt x, PyInt y => cast_if (decide (x = y))
    | PyFloat x, PyFloat y => cast_if (decide (x = y))
    | PyStr x, PyStr y => cast_if (decide (x = y))
    | PyDType x, PyDType y => cast_if (decide (x = y))
    | PyList x, PyList y => cast_if (list_eq_dec (dec := pyval_eq_dec) x y)
    | PyOp o x, PyOp o' y =>
        cast_if_and (decide (o = o')) (list_eq_dec (dec := pyval_eq_dec) x y)
    | _, _ => right _
    end); congruence.
Defined.

#[global] Instance pyval_eq_decision : EqDecision pyval := pyval_eq_dec.


(** [int(density * m)] *)
Definition int_of_product (density : pyval) (m : Z) : result Z :=
  p ← py_mul density (PyInt m); py_int p.

(** The values of one row before reordering: the salt entries, then the
    pepper entries. *)
Definition salt_pepper_row (k : Z) (max_value min_value : pyval) : list pyval :=
  replicate (Z.to_nat (k `div` 2)) max_value ++ replicate (Z.to_nat (k `div` 2)) min_value.

(** The values of one row before reordering: for each mask value in turn,
    as many entries as the loop allots to it. *)
Definition mask_row (total_corrupted : Z) (mask_values : list pyval) : list pyval :=
  concat (imap (fun i v =>
            replicate (Z.to_nat (num_vi_corrupted total_corrupted
                                   (Z.of_nat (length mask_values)) (Z.of_nat i))) v)
          mask_values).

(** The sum of a list of ints. *)
Definition sum_Z (l : list Z) : Z := foldr Z.add 0 l.

(** A dimension of a shape: [None] or an int. *)
Definition is_dim (v : pyval) : Prop := v = PyNone ∨ ∃ z, v = PyInt z.

(** A dimension the framework accepts in a static shape. *)
Definition static_dim (v : pyval) : Prop := v = PyNone ∨ ∃ z, v = PyInt z ∧ 0 ≤ z.

(** [dense_shape[1] < n_units or dense_shape[0] != self.shape[0]], the two
    tests of [Layer.__init__], each holding when its operands exist and the
    comparison answers true. *)
Definition shape_mismatch (n_units shape dense_shape : pyval) : Prop :=
  (∃ d1, getitem dense_shape 1 = Ok d1 ∧ py_lt d1 n_units = Ok true) ∨
  (∃ d0 s0, getitem dense_shape 0 = Ok d0 ∧
            getitem (self_shape n_units shape) 0 = Ok s0 ∧ py_ne d0 s0 = true).

(** Row-major order on index pairs. *)
Definition row_major (a b : Z * Z) : Prop := a.1 < b.1 ∨ (a.1 = b.1 ∧ a.2 ≤ b.2).

(** The columns of the entries a sparse tensor holds in row [r]. *)
Definition row_columns (sp : SparseTensor) (r : Z) : list Z :=
  snd <$> filter (fun i : Z * Z => i.1 = r) (sp_indices sp).

(** Reference instances of the functions the constructors take from the
    framework: a weight tensor knows its static shape, the initializer
    builds a node, values are rendered by kind, and merging builds a node
    over the tensors it is given. *)
Definition ref_get_shape (w : pyval) : result pyval :=
  match w with
  | PyOp "get_variable" [_; _; PyOp _ [PyList sh]] => Ok (PyList sh)
  | _ => Raise (ValueError "unknown shape")
  end.

Definition ref_init (shape : pyval) : result pyval := Ok (PyOp "random_uniform" [shape]).

Definition ref_str_of (v : pyval) : string :=
  match v with
  | PyStr s => s
  | PyNone => "None"
  | _ => "?"
  end.

Definition ref_merge_fn (args : list merge_arg) : result pyval :=
  ts ← mapM (fun a => match a with
                      | MTensor t => Ok t
                      | MLayer _ => Raise (TypeError "Failed to convert object to Tensor")
                      end) args;
  Ok (PyOp "add_n" ts).

(** An input object as the wrapping layers expect it: [n_units] units, a
    shape with the batch entry [b], a [dense_shape] attribute [[b, m]] with
    [n_units <= m], a dtype, a name and a tensor [y]. *)
Definition exposes (layer : pyobj) (n : Z) (b : pyval) (m : Z) (nm : string) (y : pyval)
  : Prop :=
  layer !! "n_units" = Some (PyInt n) ∧
  (∃ s1, layer !! "shape" = Some (PyList [b; s1])) ∧
  layer !! "dense_shape" = Some (PyList [b; PyInt m]) ∧
  is_Some (layer !! "dtype") ∧
  layer !! "name" = Some (PyStr nm) ∧
  layer !! "y" = Some y ∧
  is_dim b ∧ n ≤ m.

(** A well-formed sparse tensor of dense shape [[N, M]] with [num] entries
    per row: as many indices as values, every index within the dense
    shape, no index twice, in every row [num] pairwise distinct columns, and
    the indices in row-major order. *)
Definition well_formed_sparse (N M num : Z) (sp : SparseTensor) : Prop :=
  sp_dense_shape sp = [N; M] ∧
  length (sp_indices sp) = length (sp_values sp) ∧
  (∀ i, i ∈ sp_indices sp → 0 ≤ i.1 < N ∧ 0 ≤ i.2 < M) ∧
  NoDup (sp_indices sp) ∧
  (∀ r, 0 ≤ r < N → unique_row M num (row_columns sp r)) ∧
  StronglySorted row_major (sp_indices sp).

(** * Properties *)

(** ** Reasoning about results *)

Lemma bind_Ok_inv {A B} (m : result A) (f : A → result B) (b : B) :
  (m ≫= f) = Ok b → ∃ a, m = Ok a ∧ f a = Ok b.
Proof. destruct m as [a|e]; [exists a; split; [reflexivity|assumption] | discriminate]. Qed.

Lemma getattr_Ok (o : pyobj) name v : getattr o name = Ok v ↔ o !! name = Some v.
Proof. unfold getattr. destruct (o !! name); split; intros; simplify_eq; reflexivity. Qed.

Lemma getattr_None (o : pyobj) name :
  o !! name = None → getattr o name = Raise (AttributeError name).
Proof. unfold getattr. intros ->. reflexivity. Qed.

(** Invert a chain of binds that produced [Ok]. *)
Ltac inv_bind H :=
  repeat match type of H with
  | (_ ≫= _) = Ok _ =>
      let a := fresh "a" in let Ha := fresh "Ha" in
      apply bind_Ok_inv in H as (a & Ha & H)
  end.

(** ** The layer constructors *)

Lemma Layer_init_object n_units shape dense_shape dt name (self : pyobj) :
  Layer.__init__ n_units shape dense_shape dt name = Ok self →
  self = layer_object n_units shape
           (match dense_shape with PyNone => self_shape n_units shape | _ => dense_shape end)
           dt name.
Proof.
  unfold Layer.__init__, layer_object. intros H.
  apply bind_Ok_inv in H as (s & Hs & H). injection H as <-.
  assert (Hshape : ∀ o : pyobj,
    match shape with
    | PyNone => <["shape" := PyList [PyNone; n_units]]> o
    | _ => <["shape" := shape]> o
    end = <["shape" := self_shape n_units shape]> o) by (intros o; destruct shape; reflexivity).
  rewrite Hshape in Hs.
  assert (Hget : getattr (<["shape" := self_shape n_units shape]>
             (<["dtype" := dt]> (<["name" := name]> (<["n_units" := n_units]> (∅ : pyobj))))) "shape"
          = Ok (self_shape n_units shape)).
  { apply getattr_Ok. apply lookup_insert_eq. }
  destruct dense_shape; cbn [mbind] in Hs;
    try (rewrite Hget in Hs; cbn in Hs; injection Hs as <-; reflexivity);
    inv_bind Hs;
    repeat match type of Hs with
    | (if ?c then _ else _) = Ok _ => destruct c; [discriminate|]
    | (_ ≫= _) = Ok _ => inv_bind Hs
    end;
    injection Hs as <-; reflexivity.
Qed.

Lemma layer_object_lookup_dense_shape n_units shape dense dt name :
  layer_object n_units shape dense dt name !! "dense_shape" = None.
Proof. unfold layer_object. by simplify_map_eq. Qed.

Lemma layer_object_lookup_dense_sape n_units shape dense dt name :
  layer_object n_units shape dense dt name !! "dense_sape" = Some dense.
Proof. unfold layer_object. by simplify_map_eq. Qed.

Lemma layer_object_lookup_y n_units shape dense dt name :
  layer_object n_units shape dense dt name !! "y" = Some PyNone.
Proof. unfold layer_object. by simplify_map_eq. Qed.

Lemma layer_object_lookup_n_units n_units shape dense dt name :
  layer_object n_units shape dense dt name !! "n_units" = Some n_units.
Proof. unfold layer_object. by simplify_map_eq. Qed.

Lemma layer_object_lookup_shape n_units shape dense dt name :
  layer_object n_units shape dense dt name !! "shape" = Some (self_shape n_units shape).
Proof. unfold layer_object. by simplify_map_eq. Qed.

(** A layer built by [Input] is the object of [Layer.__init__] with its [y]
    replaced by the placeholder. *)
Lemma Input_init_object n_units n_active batch_size dt name (layer : pyobj) :
  Input.__init__ n_units n_active batch_size dt name = Ok layer →
  ∃ shape dense y, layer = <["y" := y]> (layer_object n_units shape dense dt name).
Proof.
  unfold Input.__init__. intros H.
  apply bind_Ok_inv in H as (b & _ & H). destruct b; [discriminate|].
  apply bind_Ok_inv in H as (shape & _ & H).
  apply bind_Ok_inv in H as (self & Hself & H).
  apply Layer_init_object in Hself.
  inv_bind H. injection H as <-. subst self. eauto.
Qed.

(** Reading [layer.dense_shape] on an object that has [n_units] and [shape]
    but no [dense_shape] stops the call of [Layer.__init__] every wrapping
    layer starts with. *)
Lemma super_init_of_no_dense_shape (layer : pyobj) suffix :
  is_Some (layer !! "n_units") → is_Some (layer !! "shape") →
  layer !! "dense_shape" = None →
  super_init_of layer suffix = Raise (AttributeError "dense_shape").
Proof.
  intros [n Hn] [s Hs] Hd. unfold super_init_of.
  apply getattr_Ok in Hn, Hs. rewrite Hn, Hs. cbn.
  rewrite (getattr_None _ _ Hd). reflexivity.
Qed.

Lemma constructed_layer_super_init (y : option pyval) n_units shape dense dt name suffix :
  super_init_of (from_option (fun v => <["y" := v]> (layer_object n_units shape dense dt name))
                   (layer_object n_units shape dense dt name) y) suffix
  = Raise (AttributeError "dense_shape").
Proof.
  apply super_init_of_no_dense_shape; destruct y; cbn;
    rewrite ?lookup_insert_ne by done;
    rewrite ?layer_object_lookup_n_units, ?layer_object_lookup_shape,
      ?layer_object_lookup_dense_shape; eauto.
Qed.

(** When the call of [Layer.__init__] returns, the new object holds [None]
    under [y] and carries the name with its suffix. *)
Lemma super_init_of_y (layer self : pyobj) suffix :
  super_init_of layer suffix = Ok self → self !! "y" = Some PyNone.
Proof.
  unfold super_init_of. intros H. inv_bind H.
  apply Layer_init_object in H as ->. apply layer_object_lookup_y.
Qed.

(** With [noise_amount == 0.0] and an input object that exposes every
    attribute the constructor reads, both noise layers hand the input's [y]
    through. *)
Lemma GaussianNoise_zero_identity (layer self : pyobj) noise_amount stddev seed :
  py_eq noise_amount zero_float = true →
  GaussianNoise.__init__ layer noise_amount stddev seed = Ok self →
  self !! "y" = layer !! "y".
Proof.
  unfold GaussianNoise.__init__. intros Hz H.
  apply bind_Ok_inv in H as (s & _ & H). rewrite Hz in H.
  apply bind_Ok_inv in H as (y & Hy & H). injection H as <-.
  apply getattr_Ok in Hy. rewrite Hy. apply lookup_insert_eq.
Qed.

Lemma SaltPepperNoise_zero_identity (layer self : pyobj) noise_amount max_value min_value seed :
  py_eq noise_amount zero_float = true →
  SaltPepperNoise.__init__ layer noise_amount max_value min_value seed = Ok self →
  self !! "y" = layer !! "y".
Proof.
  unfold SaltPepperNoise.__init__. intros Hz H.
  apply bind_Ok_inv in H as (s & _ & H). rewrite Hz in H.
  apply bind_Ok_inv in H as (y & Hy & H). injection H as <-.
  apply getattr_Ok in Hy. rewrite Hy. apply lookup_insert_eq.
Qed.

(** C1. Every object [Layer.__init__] constructs stores its shape metadata
    under the attribute [dense_sape]: equal to [self.shape] when no
    [dense_shape] argument is given and to the argument otherwise. No
    attribute [dense_shape] exists on it, so the reads [layer.dense_shape]
    of [Linear] and [ToSparse] raise AttributeError. *)
Theorem Layer_dense_shape_attribute n_units shape dense_shape dt name (self : pyobj) :
  Layer.__init__ n_units shape dense_shape dt name = Ok self →
  self !! "dense_shape" = None ∧
  self !! "dense_sape" =
    Some (match dense_shape with PyNone => self_shape n_units shape | _ => dense_shape end) ∧
  (∀ n, Linear.shape self n = Raise (AttributeError "dense_shape")) ∧
  ToSparse.__init__ self = Raise (AttributeError "dense_shape").
Proof.
  intros H. apply Layer_init_object in H. subst self.
  split; [apply layer_object_lookup_dense_shape|].
  split; [apply layer_object_lookup_dense_sape|].
  split.
  - intros n. unfold Linear.shape.
    rewrite getattr_None by apply layer_object_lookup_dense_shape. reflexivity.
  - unfold ToSparse.__init__.
    pose proof (constructed_layer_super_init None n_units shape
      (match dense_shape with PyNone => self_shape n_units shape | _ => dense_shape end)
      dt name "_sparse") as E.
    cbn [from_option] in E. rewrite E. reflexivity.
Qed.

Lemma Layer_dense_shape_attribute_witness :
  ∃ self, Layer.__init__ (PyInt 3) PyNone PyNone (PyDType float32) (PyStr "layer") = Ok self ∧
          self !! "dense_shape" = None ∧
          self !! "dense_sape" = Some (PyList [PyNone; PyInt 3]) ∧
          ToSparse.__init__ self = Raise (AttributeError "dense_shape").
Proof.
  eexists. split; [reflexivity|].
  pose proof (Layer_dense_shape_attribute (PyInt 3) PyNone PyNone (PyDType float32)
                (PyStr "layer") _ eq_refl) as (H1 & H2 & _ & H4).
  split; [exact H1|]. split; [exact H2|exact H4].
Defined.

(** [Layer.__init__] on an explicit [dense_shape] list, statement by
    statement. *)
Lemma Layer_init_list n_units shape ds dt name :
  Layer.__init__ n_units shape (PyList ds) dt name =
    (d1 ← getitem (PyList ds) 1;
     lt ← py_lt d1 n_units;
     if lt : bool then Raise (Exception "Shape mismatch: dense_shape[1] < n_units")
     else
       d0 ← getitem (PyList ds) 0;
       s0 ← getitem (self_shape n_units shape) 0;
       if py_ne d0 s0
       then Raise (Exception "Shape mismatch: dense_shape[0] != self.shape[0]")
       else Ok (layer_object n_units shape (PyList ds) dt name)).
Proof.
  unfold Layer.__init__, layer_object.
  replace (match shape with
           | PyNone => <["shape" := PyList [PyNone; n_units]]>
                         (<["dtype" := dt]> (<["name" := name]> (<["n_units" := n_units]> (∅ : pyobj))))
           | _ => <["shape" := shape]>
                    (<["dtype" := dt]> (<["name" := name]> (<["n_units" := n_units]> ∅)))
           end)
    with (<["shape" := self_shape n_units shape]>
            (<["dtype" := dt]> (<["name" := name]> (<["n_units" := n_units]> (∅ : pyobj)))))
    by (destruct shape; reflexivity).
  destruct (getitem (PyList ds) 1) as [d1|]; [cbn [mbind result_bind]|reflexivity].
  destruct (py_lt d1 n_units) as [[]|]; [reflexivity| |reflexivity]. cbn [mbind result_bind].
  destruct (getitem (PyList ds) 0) as [d0|]; [cbn [mbind result_bind]|reflexivity].
  replace (getattr _ "shape") with (Ok (self_shape n_units shape))
    by (symmetry; apply getattr_Ok, lookup_insert_eq).
  cbn [mbind result_bind].
  destruct (getitem (self_shape n_units shape) 0) as [s0|]; [cbn [mbind result_bind]|reflexivity].
  destruct (py_ne d0 s0); reflexivity.
Qed.

Lemma getitem_list_nat (l : list pyval) (i : nat) v :
  l !! i = Some v → getitem (PyList l) (Z.of_nat i) = Ok v.
Proof.
  intros H. unfold getitem.
  assert (E : (Z.of_nat i <? 0) = false) by (apply Z.ltb_ge; lia).
  cbv zeta. rewrite E. cbv iota. rewrite E, Nat2Z.id, H. reflexivity.
Qed.

(** C6. With an explicit [dense_shape] list that has the entries 0 and 1,
    when [dense_shape[1] < n_units] compares two numbers and [self.shape] is
    a list with an entry 0, the constructor raises exactly when
    [dense_shape[1] < n_units] or [dense_shape[0] != self.shape[0]];
    otherwise it returns and the object stores the given list unchanged. *)
Theorem Layer_shape_validation n_units shape (ds ss : list pyval) dt name d0 d1 s0
    (lt : bool) :
  ds !! 0%nat = Some d0 →
  ds !! 1%nat = Some d1 →
  py_lt d1 n_units = Ok lt →
  self_shape n_units shape = PyList ss →
  ss !! 0%nat = Some s0 →
  (raises (Layer.__init__ n_units shape (PyList ds) dt name)
     ↔ lt = true ∨ py_ne d0 s0 = true) ∧
  (raises (Layer.__init__ n_units shape (PyList ds) dt name)
     ↔ shape_mismatch n_units shape (PyList ds)) ∧
  (¬ (lt = true ∨ py_ne d0 s0 = true) →
     ∃ self : pyobj,
       Layer.__init__ n_units shape (PyList ds) dt name = Ok self ∧
       self !! "dense_sape" = Some (PyList ds)).
Proof.
  intros H0 H1 Hlt Hss Hs0.
  pose proof (getitem_list_nat ds 1 _ H1) as E1. change (Z.of_nat 1) with 1 in E1.
  pose proof (getitem_list_nat ds 0 _ H0) as E0. change (Z.of_nat 0) with 0 in E0.
  pose proof (getitem_list_nat ss 0 _ Hs0) as Hs. change (Z.of_nat 0) with 0 in Hs.
  rewrite <- Hss in Hs.
  assert (shape_mismatch n_units shape (PyList ds) ↔ lt = true ∨ py_ne d0 s0 = true) as Hm.
  { unfold shape_mismatch. rewrite E1, E0, Hs. split.
    - intros [(d & [= <-] & Hd) | (d & s' & [= <-] & [= <-] & Hne)];
        [left; congruence | right; exact Hne].
    - intros [-> | Hne]; [left; eauto | right; eauto]. }
  rewrite Hm, Layer_init_list, E1. cbn [mbind result_bind]. rewrite Hlt.
  cbn [mbind result_bind]. destruct lt.
  - assert (raises (Raise (Exception "Shape mismatch: dense_shape[1] < n_units")
                    : result pyobj) ↔ true = true ∨ py_ne d0 s0 = true) as Hr
      by (split; [intros _; left; reflexivity | intros _; eexists; reflexivity]).
    split; [exact Hr | split; [exact Hr|]].
    intros Hn. exfalso. apply Hn. left. reflexivity.
  - rewrite E0, Hs. cbn [mbind result_bind]. destruct (py_ne d0 s0) eqn:Hne.
    + assert (raises (Raise (Exception "Shape mismatch: dense_shape[0] != self.shape[0]")
                      : result pyobj) ↔ false = true ∨ true = true) as Hr
        by (split; [intros _; right; reflexivity | intros _; eexists; reflexivity]).
      split; [exact Hr | split; [exact Hr|]].
      intros Hn. exfalso. apply Hn. right. reflexivity.
    + assert (raises (Ok (layer_object n_units shape (PyList ds) dt name))
              ↔ false = true ∨ false = true) as Hr
        by (split; [intros [e He]; discriminate | intros [?|?]; discriminate]).
      split; [exact Hr | split; [exact Hr|]].
      intros _. eexists. split; [reflexivity|]. apply layer_object_lookup_dense_sape.
Qed.

Lemma Layer_shape_validation_witness :
  (raises (Layer.__init__ (PyInt 3) (PyList [PyInt 8; PyInt 3]) (PyList [PyInt 8; PyInt 5])
             (PyDType float32) (PyStr "layer"))
     ↔ false = true ∨ py_ne (PyInt 8) (PyInt 8) = true) ∧
  (raises (Layer.__init__ (PyInt 3) (PyList [PyInt 8; PyInt 3]) (PyList [PyInt 8; PyInt 5])
             (PyDType float32) (PyStr "layer"))
     ↔ shape_mismatch (PyInt 3) (PyList [PyInt 8; PyInt 3]) (PyList [PyInt 8; PyInt 5])) ∧
  (¬ (false = true ∨ py_ne (PyInt 8) (PyInt 8) = true) →
     ∃ self : pyobj,
       Layer.__init__ (PyInt 3) (PyList [PyInt 8; PyInt 3]) (PyList [PyInt 8; PyInt 5])
         (PyDType float32) (PyStr "layer") = Ok self ∧
       self !! "dense_sape" = Some (PyList [PyInt 8; PyInt 5])).
Proof.
  apply (Layer_shape_validation (PyInt 3) (PyList [PyInt 8; PyInt 3]) [PyInt 8; PyInt 5]
           [PyInt 8; PyInt 3] (PyDType float32) (PyStr "layer") (PyInt 8) (PyInt 5) (PyInt 8)
           false);
    reflexivity.
Defined.

(** [Layer(3, shape=[8, 3], dense_shape=[8, None])] raises the TypeError of
    [None < 3] although neither [dense_shape[1] < n_units] nor
    [dense_shape[0] != self.shape[0]] holds. *)
Lemma Layer_raises_without_mismatch :
  Layer.__init__ (PyInt 3) (PyList [PyInt 8; PyInt 3]) (PyList [PyInt 8; PyNone])
    (PyDType float32) (PyStr "layer")
  = Raise (TypeError "'<' not supported between these instances") ∧
  ¬ shape_mismatch (PyInt 3) (PyList [PyInt 8; PyInt 3]) (PyList [PyInt 8; PyNone]).
Proof.
  split; [reflexivity|].
  intros [(d1 & [= <-] & H) | (d0 & s0 & [= <-] & [= <-] & H)]; discriminate.
Qed.

(** [Layer(3, dense_shape=[None, 2])] and
    [Layer(3, shape=[8, 3], dense_shape=[4, 5])] are refused, each by its
    own test. *)
Example Layer_dense_shape_too_narrow :
  Layer.__init__ (PyInt 3) PyNone (PyList [PyNone; PyInt 2]) (PyDType float32) (PyStr "layer")
  = Raise (Exception "Shape mismatch: dense_shape[1] < n_units").
Proof. reflexivity. Qed.

Example Layer_batch_mismatch :
  Layer.__init__ (PyInt 3) (PyList [PyInt 8; PyInt 3]) (PyList [PyInt 4; PyInt 5])
    (PyDType float32) (PyStr "layer")
  = Raise (Exception "Shape mismatch: dense_shape[0] != self.shape[0]").
Proof. reflexivity. Qed.

(** C9. On a layer built by this module's own [Input], neither noise layer
    is an identity at [noise_amount == 0.0]: the read of
    [layer.dense_shape] raises AttributeError before [self.y = layer.y] is
    reached, since the constructor stored the attribute as [dense_sape]. *)
Theorem zero_noise_on_Input_raises n_units n_active batch_size dt name (layer : pyobj)
    noise_amount stddev max_value min_value seed :
  Input.__init__ n_units n_active batch_size dt name = Ok layer →
  GaussianNoise.__init__ layer noise_amount stddev seed
    = Raise (AttributeError "dense_shape") ∧
  SaltPepperNoise.__init__ layer noise_amount max_value min_value seed
    = Raise (AttributeError "dense_shape").
Proof.
  intros H. apply Input_init_object in H as (shape & dense & y & ->).
  pose proof (constructed_layer_super_init (Some y) n_units shape dense dt name "_noise") as E.
  cbn [from_option] in E.
  unfold GaussianNoise.__init__, SaltPepperNoise.__init__. rewrite E. split; reflexivity.
Qed.

Lemma zero_noise_on_Input_raises_witness :
  ∃ layer : pyobj,
    Input.__init__ (PyInt 3) PyNone PyNone (PyDType float32) (PyStr "input") = Ok layer ∧
    layer !! "y" = Some (PyOp "placeholder"
                           [PyDType float32; PyList [PyNone; PyInt 3]; PyStr "input"]) ∧
    GaussianNoise.__init__ layer zero_float (PyFloat (flt 1 (-2))) PyNone
      = Raise (AttributeError "dense_shape") ∧
    SaltPepperNoise.__init__ layer zero_float (PyInt 1) (PyInt 0) PyNone
      = Raise (AttributeError "dense_shape").
Proof.
  eexists. split; [reflexivity|]. split; [reflexivity|].
  apply (zero_noise_on_Input_raises (PyInt 3) PyNone PyNone (PyDType float32) (PyStr "input")).
  reflexivity.
Defined.

(** C2. Over an input that carries [sp_indices], with a [noise_amount]
    different from 0.0, [SaltPepperNoise] never returns a layer: when every
    earlier statement succeeds, the call
    [getattr(layer, "sp_values", default=None)] raises TypeError before
    [self.y = None] is reached. *)
Theorem SaltPepperNoise_sparse_raises (layer : pyobj) noise_amount max_value min_value seed :
  hasattr layer "sp_indices" = true →
  py_eq noise_amount zero_float = false →
  raises (SaltPepperNoise.__init__ layer noise_amount max_value min_value seed).
Proof.
  intros Hsp Hnz. unfold SaltPepperNoise.__init__.
  destruct (super_init_of layer "_noise") as [self|e]; [|eexists; reflexivity].
  cbn [mbind result_bind]. rewrite Hnz, Hsp.
  destruct (getattr layer "n_units") as [n|e]; [|eexists; reflexivity].
  cbn [mbind result_bind].
  destruct (py_mul n noise_amount) as [p|e]; [|eexists; reflexivity].
  cbn [mbind result_bind].
  destruct (py_int p) as [k|e]; [|eexists; reflexivity].
  cbn [mbind result_bind].
  destruct (getattr _ "shape") as [s|e]; [|eexists; reflexivity].
  cbn [mbind result_bind].
  destruct (getitem s 0) as [b|e]; [|eexists; reflexivity].
  cbn [mbind result_bind].
  destruct (getattr layer "sp_indices") as [i|e]; eexists; reflexivity.
Qed.

Lemma SaltPepperNoise_sparse_raises_witness :
  hasattr exposed_sparse_layer "sp_indices" = true ∧
  py_eq (PyFloat (flt 1 (-1))) zero_float = false ∧
  raises (SaltPepperNoise.__init__ exposed_sparse_layer (PyFloat (flt 1 (-1)))
            (PyInt 1) (PyInt 0) PyNone).
Proof.
  split; [reflexivity|]. split; [reflexivity|].
  apply SaltPepperNoise_sparse_raises; reflexivity.
Defined.

(** The exception at that input is the one of the keyword call. *)
Example SaltPepperNoise_sparse_TypeError :
  SaltPepperNoise.__init__ exposed_sparse_layer (PyFloat (flt 1 (-1))) (PyInt 1) (PyInt 0) PyNone
  = Raise (TypeError "getattr() takes no keyword arguments").
Proof. reflexivity. Qed.

(** C5. With a [noise_amount] different from 0.0, [GaussianNoise] never
    returns a layer whose [y] is the input's tensor plus noise: the sum is
    taken over [self.y], which [Layer.__init__] has just set to [None], and
    the framework refuses [None] as an operand. *)
Theorem GaussianNoise_nonzero_raises (layer : pyobj) noise_amount stddev seed :
  py_eq noise_amount zero_float = false →
  raises (GaussianNoise.__init__ layer noise_amount stddev seed).
Proof.
  intros Hnz. unfold GaussianNoise.__init__.
  destruct (super_init_of layer "_noise") as [self|e] eqn:Hsuper; [|eexists; reflexivity].
  cbn [mbind result_bind]. rewrite Hnz.
  destruct (getattr layer "y") as [ly|e]; [|eexists; reflexivity].
  cbn [mbind result_bind].
  destruct (array_ops_shape ly) as [shp|e]; [|eexists; reflexivity].
  cbn [mbind result_bind].
  destruct (getattr _ "stddev") as [sd|e]; [|eexists; reflexivity].
  cbn [mbind result_bind].
  apply super_init_of_y in Hsuper.
  replace (getattr _ "y") with (Ok PyNone : result pyval).
  - eexists. reflexivity.
  - symmetry. apply getattr_Ok. by simplify_map_eq.
Qed.

Lemma GaussianNoise_nonzero_raises_witness :
  py_eq (PyFloat (flt 1 (-1))) zero_float = false ∧
  raises (GaussianNoise.__init__ exposed_layer (PyFloat (flt 1 (-1)))
            (PyFloat (flt 1 (-2))) PyNone).
Proof.
  split; [reflexivity|]. apply GaussianNoise_nonzero_raises. reflexivity.
Defined.

(** At that input the sum [math_ops.add(self.y, noise)] is the statement
    that raises. *)
Example GaussianNoise_nonzero_ValueError :
  GaussianNoise.__init__ exposed_layer (PyFloat (flt 1 (-1))) (PyFloat (flt 1 (-2))) PyNone
  = Raise (ValueError "None values not supported.").
Proof. reflexivity. Qed.

(** On the same input with [noise_amount == 0.0] the tensor is handed
    through. *)
Example GaussianNoise_zero_on_exposed_layer :
  ∃ self : pyobj,
    GaussianNoise.__init__ exposed_layer zero_float (PyFloat (flt 1 (-2))) PyNone = Ok self ∧
    self !! "y" = exposed_layer !! "y".
Proof. eexists. split; reflexivity. Qed.

(** ** Reasoning in the state-and-exception monad *)

Lemma M_bind_Ok_inv {S A B} (m : M S A) (f : A → M S B) g b g' :
  (m ≫= f) g = Ok (b, g') → ∃ a g1, m g = Ok (a, g1) ∧ f a g1 = Ok (b, g').
Proof.
  unfold mbind, M_bind. destruct (m g) as [[a g1]|e]; [eauto|discriminate].
Qed.

Lemma M_bind_Ok {S A B} (m : M S A) (f : A → M S B) g a g1 :
  m g = Ok (a, g1) → (m ≫= f) g = f a g1.
Proof. unfold mbind, M_bind. intros ->. reflexivity. Qed.

Lemma lift_Ok_inv {S A} (r : result A) (g : S) a g' :
  lift r g = Ok (a, g') → r = Ok a ∧ g' = g.
Proof. unfold lift. destruct r; intros H; simplify_eq; auto. Qed.

Lemma M_ret_Ok_inv {S A} (a b : A) (g g' : S) :
  mret (M := M S) a g = Ok (b, g') → b = a ∧ g' = g.
Proof. unfold mret, M_ret. intros H. simplify_eq. auto. Qed.

(** Invert a run of the monad that produced [Ok]. *)
Ltac inv_M H :=
  repeat match type of H with
  | (lift _ ≫= _) _ = Ok _ =>
      let a := fresh "a" in let g := fresh "g" in
      let Ha := fresh "Ha" in let Hg := fresh "Hg" in
      apply M_bind_Ok_inv in H as (a & g & Ha & H);
      apply lift_Ok_inv in Ha as [Ha Hg]; subst g
  | (_ ≫= _) _ = Ok _ =>
      let a := fresh "a" in let g := fresh "g" in let Ha := fresh "Ha" in
      apply M_bind_Ok_inv in H as (a & g & Ha & H)
  | mret _ _ = Ok _ =>
      let Hg := fresh "Hg" in apply M_ret_Ok_inv in H as [H Hg]
  | lift _ _ = Ok _ =>
      let Hg := fresh "Hg" in apply lift_Ok_inv in H as [H Hg]
  end.

Lemma length_tf_range lo hi : length (tf_range lo hi) = Z.to_nat (hi - lo).
Proof. unfold tf_range. rewrite length_fmap, length_seq. reflexivity. Qed.

Lemma length_py_range n : length (py_range n) = Z.to_nat n.
Proof. unfold py_range. rewrite length_fmap, length_seq. reflexivity. Qed.

Section map_fn.
Context {S A B : Type} (fn : A → M S B).

(** Every row [map_fn] returns was returned by one run of [fn], and there
    is one row per element. *)
Lemma map_fn_sound (P : B → Prop) (elems : list A) :
  (∀ x g y g', fn x g = Ok (y, g') → P y) →
  ∀ g ys g', map_fn fn elems g = Ok (ys, g') →
    length ys = length elems ∧ Forall P ys.
Proof.
  intros Hfn. induction elems as [|x elems IH]; intros g ys g' H; cbn [map_fn] in H.
  - inv_M H. subst. split; [reflexivity|constructor].
  - inv_M H. subst ys. destruct (IH _ _ _ Ha0) as [Hlen HP].
    split; [cbn; lia|]. constructor; [eapply Hfn; eassumption | exact HP].
Qed.

Lemma map_fn_total (elems : list A) :
  (∀ x g, ∃ y g', fn x g = Ok (y, g')) →
  ∀ g, ∃ ys g', map_fn fn elems g = Ok (ys, g').
Proof.
  intros Hfn. induction elems as [|x elems IH]; intros g; cbn [map_fn].
  - eexists _, _. reflexivity.
  - destruct (Hfn x g) as (y & g1 & Hy). destruct (IH g1) as (ys & g2 & Hys).
    exists (y :: ys), g2. rewrite (M_bind_Ok _ _ _ _ _ Hy), (M_bind_Ok _ _ _ _ _ Hys).
    reflexivity.
Qed.
End map_fn.

(** ** Index sampling *)

Lemma ref_sampler_contract : sampler_contract ref_sampler.
Proof.
  split.
  - intros num range seed g l g' H. unfold ref_sampler in H.
    destruct ((num <? 1) || (range <? 1)) eqn:Hlow; [discriminate|].
    apply orb_false_iff in Hlow as [Hn Hr]. apply Z.ltb_ge in Hn, Hr.
    cbn [andb] in H. destruct (range <? num) eqn:Hrn; [discriminate|].
    apply Z.ltb_ge in Hrn. injection H as <- <-.
    assert (Hmod : ∀ i : nat, (i < Z.to_nat num)%nat →
              (range - 1 - Z.of_nat i) `mod` range = range - 1 - Z.of_nat i)
      by (intros i Hi; apply Z.mod_small; lia).
    split; [rewrite length_fmap, length_seq; reflexivity|]. split.
    + apply NoDup_fmap_2_strong; [|apply NoDup_seq].
      intros i j Hi Hj Heq. apply elem_of_seq in Hi, Hj.
      rewrite !Hmod in Heq by lia. lia.
    + apply Forall_fmap, Forall_forall. intros i Hi. apply elem_of_seq in Hi.
      cbn. rewrite Hmod by lia. lia.
  - intros num range seed g Hle. unfold ref_sampler.
    assert ((num <? 1) || (range <? 1) = false) as ->
      by (apply orb_false_iff; split; apply Z.ltb_ge; lia).
    assert ((range <? num) = false) as -> by (apply Z.ltb_ge; lia).
    eexists _, _. reflexivity.
Qed.

Section sampling.
Context {rng : Type}.
Variable sampler : list (list Z) → Z → Z → bool → Z → option Z → M rng (list Z).
Hypothesis sampler_ok : sampler_contract sampler.

Lemma _sample_sound range_max num_sampled seed g l g' :
  _sample rng sampler range_max num_sampled true seed g = Ok (l, g') →
  unique_row range_max num_sampled l.
Proof. unfold _sample. apply sampler_ok. Qed.

Lemma _sample_total range_max num_sampled seed g :
  1 ≤ num_sampled ≤ range_max →
  ∃ l g', _sample rng sampler range_max num_sampled true seed g = Ok (l, g').
Proof. unfold _sample. apply sampler_ok. Qed.

(** The batched call: one row per batch entry, each drawn without
    replacement. *)
Lemma sample_batch_sound range_max num_sampled b unique seed g t g' :
  sample rng sampler range_max num_sampled (Some b) unique seed g = Ok (t, g') →
  ∃ rows, t = Mat rows ∧ length rows = Z.to_nat b ∧
          Forall (unique_row range_max num_sampled) rows.
Proof.
  unfold sample. intros H. inv_M H. subst t. exists a. split; [reflexivity|].
  eapply map_fn_sound in Ha as [Hlen Hrows].
  - rewrite length_tf_range, Z.sub_0_r in Hlen. split; [exact Hlen|exact Hrows].
  - intros _ ? ? ?. apply _sample_sound.
Qed.

Lemma sample_batch_total range_max num_sampled b unique seed g :
  1 ≤ num_sampled ≤ range_max →
  ∃ rows g', sample rng sampler range_max num_sampled (Some b) unique seed g
             = Ok (Mat rows, g').
Proof.
  intros Hle. unfold sample.
  destruct (map_fn_total (fun _ : Z => _sample rng sampler range_max num_sampled true None)
              (tf_range 0 b)) with (g := g) as (rows & g' & Hrows).
  - intros _ g0. apply _sample_total. exact Hle.
  - exists rows, g'. rewrite (M_bind_Ok _ _ _ _ _ Hrows). reflexivity.
Qed.


End sampling.


(** ** Rows of a sparse tensor *)

Lemma tagged_row_filter (tag r : Z) (row : list Z) (vrow : list pyval) :
  length row = length vrow →
  (filter (fun e : (Z * Z) * pyval => e.1.1 = r) (zip ((fun c => (tag, c)) <$> row) vrow)).*2
  = if decide (tag = r) then vrow else [].
Proof.
  revert vrow. induction row as [|c row IH]; intros [|v vrow] Hlen; try discriminate.
  - destruct (decide (tag = r)); reflexivity.
  - cbn [fmap list_fmap zip zip_with]. rewrite filter_cons. cbn [fst].
    injection Hlen as Hlen. specialize (IH vrow Hlen).
    destruct (decide (tag = r)) as [Heq|Hne]; cbn [fmap list_fmap snd].
    + f_equal. exact IH.
    + exact IH.
Qed.

Lemma tagged_rows_filter (t : nat → Z) (r : Z) (rows : list (list Z)) (vrows : list (list pyval)) :
  Forall2 (fun row vrow => length row = length vrow) rows vrows →
  (filter (fun e : (Z * Z) * pyval => e.1.1 = r)
     (zip (concat (imap (fun i row => (fun c => (t i, c)) <$> row) rows)) (concat vrows))).*2
  = concat (imap (fun i vrow => if decide (t i = r) then vrow else []) vrows).
Proof.
  intros H. revert t. induction H as [|row vrow rows vrows Hlen _ IH]; intros t.
  - reflexivity.
  - rewrite !imap_cons. cbn [concat].
    rewrite zip_with_app; [|rewrite length_fmap; exact Hlen].
    rewrite filter_app, fmap_app. f_equal.
    + apply tagged_row_filter. exact Hlen.
    + apply (IH (t ∘ S)).
Qed.

Lemma pick_no_row (t : nat → Z) (r : Z) (vrows : list (list pyval)) :
  (∀ i, t i ≠ r) →
  concat (imap (fun i vrow => if decide (t i = r) then vrow else []) vrows) = [].
Proof.
  revert t. induction vrows as [|v vrows IH]; intros t Ht; [reflexivity|].
  rewrite imap_cons. cbn [concat]. destruct (decide (t 0%nat = r)) as [Heq|_].
  - destruct (Ht _ Heq).
  - apply (IH (t ∘ S)). intros i. apply Ht.
Qed.

Lemma pick_one_row (t : nat → Z) (r : Z) (j : nat) (vrows : list (list pyval)) :
  (∀ i, t i = r ↔ i = j) →
  concat (imap (fun i vrow => if decide (t i = r) then vrow else []) vrows)
  = default [] (vrows !! j).
Proof.
  revert t j. induction vrows as [|v vrows IH]; intros t j Ht.
  - destruct j; reflexivity.
  - rewrite imap_cons. cbn [concat]. destruct j as [|j].
    + destruct (decide (t 0%nat = r)) as [_|Hne]; [|destruct Hne; apply Ht; reflexivity].
      cbn. transitivity (v ++ []); [|apply app_nil_r]. f_equal.
      apply (pick_no_row (t ∘ S)).
      intros i Hi. apply Ht in Hi. discriminate.
    + destruct (decide (t 0%nat = r)) as [Heq|_]; [apply Ht in Heq; discriminate|].
      cbn. apply (IH (t ∘ S)). intros i. cbn. rewrite Ht. lia.
Qed.

(** The values of row [r], when the indices come from [enum_row] and the
    values are laid out row after row. *)
Lemma row_values_enum_row rows vrows indices dt ds (r : Z) :
  enum_row (Mat rows) = Ok indices →
  Forall2 (fun row vrow => length row = length vrow) rows vrows →
  0 ≤ r →
  row_values (mkSparseTensor indices (concat vrows) dt ds) r
  = default [] (vrows !! Z.to_nat r).
Proof.
  intros Hidx Hlen Hr. injection Hidx as <-. unfold row_values. cbn [sp_indices sp_values].
  rewrite (tagged_rows_filter Z.of_nat r rows vrows Hlen).
  apply pick_one_row. intros i. lia.
Qed.

Lemma length_concat_imap {A B} (f : nat → list A → list B) (rows : list (list A)) (w : nat) :
  (∀ i row, length (f i row) = length row) →
  Forall (fun row => length row = w) rows →
  length (concat (imap f rows)) = (length rows * w)%nat.
Proof.
  intros Hf Hrows. revert f Hf.
  induction Hrows as [|row rows Hrow _ IH]; intros f Hf; [reflexivity|].
  rewrite imap_cons. cbn [concat length]. rewrite length_app, Hf, Hrow, IH; [lia|].
  intros i x. apply Hf.
Qed.

(** Reordering permutes the entries within every row and keeps their
    number. *)
Lemma sparse_reorder_rows sp sp' :
  sparse_reorder sp = Ok sp' →
  (∀ r, row_values sp' r ≡ₚ row_values sp r) ∧
  length (sp_values sp') = length (sp_values sp) ∧
  sp_values sp' ≡ₚ sp_values sp.
Proof.
  unfold sparse_reorder. destruct (Nat.eqb_spec (length (sp_indices sp)) (length (sp_values sp)))
    as [Hlen|]; [|discriminate].
  intros H. injection H as <-. cbn [sp_values sp_indices].
  assert (Hperm : (merge_sort index_le (zip (sp_indices sp) (sp_values sp))).*2
                    ≡ₚ sp_values sp).
  { rewrite merge_sort_Permutation. rewrite snd_zip by lia. reflexivity. }
  split; [|split].
  - intros r. unfold row_values. cbn [sp_values sp_indices].
    rewrite zip_fst_snd. rewrite merge_sort_Permutation. reflexivity.
  - apply Permutation_length. exact Hperm.
  - exact Hperm.
Qed.

(** ** Dense value tensors *)

Lemma scalar_of_py_value v s : scalar_of_py v = Ok s → s_value s = v.
Proof. destruct v; cbn; intros H; simplify_eq; reflexivity. Qed.

Lemma array_ops_fill_inv n w v t :
  array_ops_fill n w v = Ok t →
  0 ≤ n ∧ 0 ≤ w ∧
  t = mkTensor (s_dtype v) (replicate (Z.to_nat n) (replicate (Z.to_nat w) (s_value v))).
Proof.
  unfold array_ops_fill. destruct (Z.ltb_spec n 0); [discriminate|].
  destruct (Z.ltb_spec w 0); [discriminate|]. cbn [orb].
  intros Hfill. injection Hfill as <-. auto.
Qed.

Lemma array_ops_fill_Ok n w v :
  0 ≤ n → 0 ≤ w →
  array_ops_fill n w v
  = Ok (mkTensor (s_dtype v) (replicate (Z.to_nat n) (replicate (Z.to_nat w) (s_value v)))).
Proof.
  intros Hn Hw. unfold array_ops_fill.
  assert ((n <? 0) = false) as -> by (apply Z.ltb_ge; lia).
  assert ((w <? 0) = false) as -> by (apply Z.ltb_ge; lia).
  reflexivity.
Qed.

(** Concatenating tensors whose rows are all alike gives rows that are all
    alike: the segments one after the other. *)
Lemma concat_rows_replicate (n : nat) (segs : list (list pyval)) :
  segs ≠ [] → concat_rows (replicate n <$> segs) = replicate n (concat segs).
Proof.
  induction segs as [|s segs IH]; [congruence|]. intros _.
  destruct segs as [|s' segs].
  - cbn. rewrite app_nil_r. reflexivity.
  - change (concat_rows (replicate n <$> s :: s' :: segs))
      with (zip_with app (replicate n s) (concat_rows (replicate n <$> s' :: segs))).
    rewrite IH by discriminate. rewrite zip_with_replicate. reflexivity.
Qed.

Lemma array_ops_concat_fills (dt : dtype) (n : nat) (segs : list (list pyval)) :
  segs ≠ [] →
  array_ops_concat ((fun seg => mkTensor dt (replicate n seg)) <$> segs)
  = Ok (mkTensor dt (replicate n (concat segs))).
Proof.
  intros Hne. destruct segs as [|s segs]; [congruence|].
  unfold array_ops_concat. cbn [fmap list_fmap t_dtype t_rows].
  assert (forallb (fun t' => bool_decide (t_dtype t' = dt))
            ((fun seg => mkTensor dt (replicate n seg)) <$> segs) = true) as ->.
  { apply forallb_forall. intros t Ht. apply list_elem_of_In, list_elem_of_fmap in Ht
      as (seg & -> & _). apply bool_decide_eq_true. reflexivity. }
  assert (forallb (fun t' => (length (t_rows t') =? length (replicate n s))%nat)
            ((fun seg => mkTensor dt (replicate n seg)) <$> segs) = true) as ->.
  { apply forallb_forall. intros t Ht. apply list_elem_of_In, list_elem_of_fmap in Ht
      as (seg & -> & _). apply Nat.eqb_eq. cbn. rewrite !length_replicate. reflexivity. }
  f_equal. f_equal.
  rewrite <- (concat_rows_replicate n (s :: segs)) by discriminate.
  cbn [fmap list_fmap]. f_equal. f_equal. rewrite <- list_fmap_compose. reflexivity.
Qed.

(** ** Counting the entries of a row *)





Lemma list_getitem_0 (n m : Z) : list_getitem [n; m] 0 = Ok n.
Proof. reflexivity. Qed.

Lemma list_getitem_1 (n m : Z) : list_getitem [n; m] 1 = Ok m.
Proof. reflexivity. Qed.

Lemma int_of_product_inv density m k p :
  int_of_product density m = Ok k → py_mul density (PyInt m) = Ok p → py_int p = Ok k.
Proof. unfold int_of_product. intros H Hp. rewrite Hp in H. exact H. Qed.

Lemma int_of_product_Ok density m k :
  int_of_product density m = Ok k →
  ∃ p, py_mul density (PyInt m) = Ok p ∧ py_int p = Ok k.
Proof. unfold int_of_product. intros H. apply bind_Ok_inv in H. exact H. Qed.

Lemma M_bind_lift_Ok {S A B} (r : result A) (f : A → M S B) (g : S) a :
  r = Ok a → (lift r ≫= f) g = f a g.
Proof. intros ->. reflexivity. Qed.

(** One step of a run that returned: the first bind returned [x]. *)
Tactic Notation "step" hyp(H) "as" ident(x) ident(Hx) :=
  let g := fresh "g" in
  apply M_bind_Ok_inv in H as (x & g & Hx & H);
  try (apply lift_Ok_inv in Hx as [Hx ->]).

(** ** Salt and pepper noise *)

Section salt_pepper.
Context {rng : Type}.
Variable sampler : list (list Z) → Z → Z → bool → Z → option Z → M rng (list Z).

(** What a run of [salt_pepper_noise] that returned went through. *)
Lemma salt_pepper_noise_inv N M density max_value min_value seed dt k g res g' :
  int_of_product density M = Ok k →
  salt_pepper_noise rng sampler [N; M] density max_value min_value seed dt g = Ok (res, g') →
  (k < 2 ∧ res = None ∧ g' = g) ∨
  (2 ≤ k ∧ 0 ≤ N ∧
   ∃ samples idx vdt sp,
     sample rng sampler M (k `div` 2 + k `div` 2) (Some N) true seed g = Ok (samples, g') ∧
     enum_row samples = Ok idx ∧
     sparse_reorder
       (mkSparseTensor idx
          (concat (replicate (Z.to_nat N) (salt_pepper_row k max_value min_value)))
          vdt [N; M]) = Ok sp ∧
     res = Some sp).
Proof.
  intros Hk H. unfold salt_pepper_noise in H.
  step H as m Hm. injection Hm as <-.
  step H as p Hp. step H as k' Hk'.
  rewrite (int_of_product_inv _ _ _ _ Hk Hp) in Hk'. injection Hk' as <-.
  destruct (Z.ltb_spec k 2) as [Hlt|Hge].
  { left. cbn in H. injection H as <- <-. auto. }
  destruct (Z.eqb_spec k 0) as [->|_]; [lia|]. right.
  step H as b Hb. injection Hb as <-.
  step H as mr Hmr. injection Hmr as <-.
  step H as samples Hs. step H as idx Hidx.
  step H as d0 Hd0. injection Hd0 as <-.
  step H as d1 Hd1. injection Hd1 as <-.
  step H as salt Hsalt. step H as st Hst.
  step H as pepper Hpepper. step H as pt Hpt. step H as vs Hvs.
  apply array_ops_fill_inv in Hst as (HN & _ & ->).
  apply array_ops_fill_inv in Hpt as (_ & _ & ->).
  rewrite (scalar_of_py_value _ _ Hsalt), (scalar_of_py_value _ _ Hpepper) in Hvs.
  unfold array_ops_concat in Hvs. cbn [forallb t_dtype t_rows andb] in Hvs.
  destruct (bool_decide (s_dtype pepper = s_dtype salt)); [|discriminate].
  rewrite !length_replicate, Nat.eqb_refl in Hvs. injection Hvs as <-.
  cbn [fmap list_fmap t_rows concat_rows] in H. rewrite zip_with_replicate in H.
  unfold array_ops_reshape_flat in H. cbn [t_dtype t_rows] in H.
  step H as sp Hsp. injection H as <- <-.
  split; [exact Hge|]. split; [exact HN|]. eauto 10.
Qed.

(** C8. [salt_pepper_noise] returns [None] exactly when
    [int(density * M) < 2]. *)
Theorem salt_pepper_noise_None_iff N M density max_value min_value seed dt k g :
  int_of_product density M = Ok k →
  (∃ g', salt_pepper_noise rng sampler [N; M] density max_value min_value seed dt g
         = Ok (None, g')) ↔ k < 2.
Proof.
  intros Hk. split.
  - intros [g' H]. apply (salt_pepper_noise_inv _ _ _ _ _ _ _ _ _ _ _ Hk) in H
      as [(Hlt & _ & _) | (_ & _ & samples & idx & vdt & sp & _ & _ & _ & Hres)];
      [exact Hlt | discriminate].
  - intros Hlt. exists g. unfold salt_pepper_noise.
    apply int_of_product_Ok in Hk as (p & Hp & Hk).
    rewrite (M_bind_lift_Ok _ _ _ _ (list_getitem_1 N M)).
    rewrite (M_bind_lift_Ok _ _ _ _ Hp), (M_bind_lift_Ok _ _ _ _ Hk).
    assert ((k <? 2) = true) as -> by (apply Z.ltb_lt; exact Hlt).
    reflexivity.
Qed.

Hypothesis sampler_ok : sampler_contract sampler.



End salt_pepper.

Lemma salt_pepper_noise_None_iff_witness :
  int_of_product (PyFloat (flt 1 (-1))) 3 = Ok 1 ∧
  ((∃ g', salt_pepper_noise nat ref_sampler [2; 3] (PyFloat (flt 1 (-1))) (PyInt 1) (PyInt (-1))
            None float32 0%nat = Ok (None, g')) ↔ 1 < 2).
Proof.
  split; [reflexivity|].
  apply (salt_pepper_noise_None_iff ref_sampler 2 3 (PyFloat (flt 1 (-1)))). reflexivity.
Defined.

(** ** Random masks *)

Lemma ref_shuffle_contract : shuffle_contract ref_shuffle.
Proof.
  split.
  - intros vs seed g vs' g' H. injection H as <- <-. apply reverse_Permutation.
  - intros vs seed g. eexists _, _. reflexivity.
Qed.

Lemma num_vi_corrupted_first total k i :
  i ≠ k - 1 → num_vi_corrupted total k i = total `div` k.
Proof.
  intros Hne. unfold num_vi_corrupted.
  destruct (Z.eqb_spec i (k - 1)); [contradiction|reflexivity].
Qed.

Lemma num_vi_corrupted_last total k :
  num_vi_corrupted total k (k - 1) = total - total `div` k * (k - 1).
Proof. unfold num_vi_corrupted. rewrite Z.eqb_refl. reflexivity. Qed.

Lemma num_vi_corrupted_nonneg total k i :
  0 ≤ total → 1 ≤ k → 0 ≤ num_vi_corrupted total k i.
Proof.
  intros Ht Hk. unfold num_vi_corrupted.
  assert (0 ≤ total `div` k) by (apply Z.div_pos; lia).
  assert (k * (total `div` k) ≤ total) by (apply Z.mul_div_le; lia).
  destruct (i =? k - 1); nia.
Qed.

Lemma sum_Z_app l1 l2 : sum_Z (l1 ++ l2) = sum_Z l1 + sum_Z l2.
Proof. unfold sum_Z. induction l1 as [|x l1 IH]; cbn; [reflexivity|]. rewrite IH. lia. Qed.

Lemma sum_Z_const (c : Z) (l : list Z) :
  Forall (fun x => x = c) l → sum_Z l = Z.of_nat (length l) * c.
Proof.
  induction 1 as [|x l -> _ IH]; [reflexivity|].
  unfold sum_Z in *. cbn [foldr length]. rewrite IH. lia.
Qed.

(** The per-value counts add up to the total. *)
Lemma num_vi_corrupted_sum total (n : nat) :
  sum_Z (num_vi_corrupted total (Z.of_nat (S n)) <$> py_range (Z.of_nat (S n))) = total.
Proof.
  unfold py_range. rewrite Nat2Z.id, seq_S, !fmap_app, sum_Z_app.
  rewrite (sum_Z_const (total `div` Z.of_nat (S n))).
  - rewrite !length_fmap, length_seq. cbn [fmap list_fmap sum_Z foldr].
    replace (Z.of_nat (0 + n)) with (Z.of_nat (S n) - 1) by lia.
    rewrite num_vi_corrupted_last. lia.
  - rewrite <- list_fmap_compose. apply Forall_fmap, Forall_forall.
    intros i Hi. apply elem_of_seq in Hi. cbn. apply num_vi_corrupted_first. lia.
Qed.

(** All values but the last get [total // k] entries, the last gets the
    remainder. *)
Lemma mask_row_snoc total (init : list pyval) (x : pyval) :
  mask_row total (init ++ [x]) =
    concat (replicate (Z.to_nat (total `div` Z.of_nat (S (length init)))) <$> init)
    ++ replicate (Z.to_nat (total - total `div` Z.of_nat (S (length init))
                                      * Z.of_nat (length init))) x.
Proof.
  unfold mask_row. rewrite length_app. cbn [length].
  replace (length init + 1)%nat with (S (length init)) by lia.
  rewrite imap_app, concat_app. cbn [imap concat]. rewrite app_nil_r. f_equal.
  - f_equal. rewrite <- imap_const. apply imap_ext. intros i v Hi.
    apply lookup_lt_Some in Hi. cbn. rewrite num_vi_corrupted_first by lia. reflexivity.
  - replace (Z.of_nat (length init + 0)) with (Z.of_nat (S (length init)) - 1) by lia.
    rewrite num_vi_corrupted_last. do 3 f_equal. lia.
Qed.

Lemma length_mask_row total (vs : list pyval) :
  0 ≤ total → vs ≠ [] → length (mask_row total vs) = Z.to_nat total.
Proof.
  intros Ht Hne. destruct vs as [|x init _] using rev_ind; [congruence|].
  rewrite mask_row_snoc, length_app, length_replicate.
  assert (length (concat (replicate (Z.to_nat (total `div` Z.of_nat (S (length init)))) <$> init))
          = (length init * Z.to_nat (total `div` Z.of_nat (S (length init))))%nat) as ->.
  { generalize (Z.to_nat (total `div` Z.of_nat (S (length init)))) as q. intros q.
    clear. induction init as [|v init IH]; [reflexivity|].
    cbn [fmap list_fmap concat length]. rewrite length_app, length_replicate, IH. lia. }
  assert (0 ≤ total `div` Z.of_nat (S (length init))) by (apply Z.div_pos; lia).
  assert (Z.of_nat (S (length init)) * (total `div` Z.of_nat (S (length init))) ≤ total)
    by (apply Z.mul_div_le; lia).
  nia.
Qed.

(** What the loop of [sparse_random_mask] appended when it returned: one
    filled tensor per index, as wide as [num_vi_corrupted] says. *)
Lemma value_tensors_loop_inv idxs mdt vs total k n acc ts :
  value_tensors_loop idxs mdt vs total k n acc = Ok ts →
  (idxs ≠ [] → 0 ≤ n) ∧
  ∃ segs,
    ts = acc ++ ((fun seg => mkTensor mdt (replicate (Z.to_nat n) seg)) <$> segs) ∧
    Forall2 (fun i seg => ∃ v, vs !! Z.to_nat i = Some v ∧
                               seg = replicate (Z.to_nat (num_vi_corrupted total k i)) v ∧
                               0 ≤ num_vi_corrupted total k i) idxs segs.
Proof.
  revert acc. induction idxs as [|i idxs IH]; intros acc H; cbn [value_tensors_loop] in H.
  - injection H as <-. split; [congruence|]. exists []. rewrite app_nil_r. auto.
  - apply bind_Ok_inv in H as (v & Hv & H). apply bind_Ok_inv in H as (t & Ht & H).
    apply array_ops_fill_inv in Ht as (Hn & Hw & ->). cbn [s_dtype s_value] in H.
    apply IH in H as (_ & segs & -> & Hsegs). split; [intros _; exact Hn|].
    exists (replicate (Z.to_nat (num_vi_corrupted total k i)) v :: segs). split.
    + rewrite <- app_assoc. reflexivity.
    + constructor; [|exact Hsegs]. exists v. unfold list_getitem in Hv.
      destruct (vs !! Z.to_nat i); [|discriminate]. injection Hv as ->. auto.
Qed.

Lemma value_tensors_loop_Ok idxs mdt vs total k n acc :
  0 ≤ n →
  Forall (fun i => 0 ≤ num_vi_corrupted total k i ∧ is_Some (vs !! Z.to_nat i)) idxs →
  ∃ ts, value_tensors_loop idxs mdt vs total k n acc = Ok ts.
Proof.
  intros Hn H. revert acc. induction H as [|i idxs [Hw [v Hv]] _ IH]; intros acc.
  - eexists. reflexivity.
  - cbn [value_tensors_loop]. unfold list_getitem. rewrite Hv. cbn [mbind result_bind].
    rewrite array_ops_fill_Ok by assumption. cbn [mbind result_bind]. apply IH.
Qed.

(** Over [range(len(mask_values))] the segments are those of [mask_row]. *)
Lemma loop_segments_mask_row (vs : list pyval) total segs :
  Forall2 (fun i seg => ∃ v, vs !! Z.to_nat i = Some v ∧
             seg = replicate (Z.to_nat (num_vi_corrupted total (Z.of_nat (length vs)) i)) v ∧
             0 ≤ num_vi_corrupted total (Z.of_nat (length vs)) i)
    (py_range (Z.of_nat (length vs))) segs →
  concat segs = mask_row total vs.
Proof.
  intros H. unfold mask_row. f_equal. apply list_eq. intros j.
  rewrite list_lookup_imap.
  pose proof (Forall2_length _ _ _ H) as Hlen. rewrite length_py_range, Nat2Z.id in Hlen.
  destruct (vs !! j) as [v|] eqn:Hj; cbn.
  - assert (Hidx : py_range (Z.of_nat (length vs)) !! j = Some (Z.of_nat j)).
    { unfold py_range. rewrite Nat2Z.id, list_lookup_fmap, lookup_seq_lt;
        [reflexivity | eapply lookup_lt_Some; eassumption]. }
    destruct (Forall2_lookup_l _ _ _ _ _ H Hidx) as (seg & Hseg & v' & Hv' & -> & _).
    rewrite Nat2Z.id, Hj in Hv'. injection Hv' as <-. exact Hseg.
  - apply lookup_ge_None. apply lookup_ge_None in Hj. lia.
Qed.

Section mask.
Context {rng : Type}.
Variable sampler : list (list Z) → Z → Z → bool → Z → option Z → M rng (list Z).
Variable shuffle : list pyval → option Z → M rng (list pyval).
Hypothesis sampler_ok : sampler_contract sampler.
Hypothesis shuffle_ok : shuffle_contract shuffle.

(** The rows of the tensor [sparse_random_mask] returned. *)
Lemma sparse_random_mask_rows N M density mask_values dt seed total g sp g' :
  mask_values ≠ [] →
  int_of_product density M = Ok total →
  sparse_random_mask rng sampler shuffle [N; M] density mask_values dt seed g = Ok (sp, g') →
  0 ≤ total ∧
  ∃ vs, vs ≡ₚ mask_values ∧ ∀ r, 0 ≤ r < N → row_values sp r ≡ₚ mask_row total vs.
Proof.
  intros Hne Hk H. unfold sparse_random_mask in H.
  step H as m Hm. injection Hm as <-.
  step H as p Hp. step H as k' Hk'.
  rewrite (int_of_product_inv _ _ _ _ Hk Hp) in Hk'. injection Hk' as <-.
  step H as mdt Hmdt. step H as vs Hvs.
  apply shuffle_ok in Hvs. pose proof (Permutation_length Hvs) as Hlen.
  step H as mr Hmr. injection Hmr as <-.
  step H as b Hb. injection Hb as <-.
  step H as samples Hs. step H as idx Hidx. step H as ts Hts.
  rewrite <- Hlen in Hts.
  apply value_tensors_loop_inv in Hts as (HN & segs & -> & Hsegs).
  assert (Hvne : vs ≠ []) by (intros ->; apply Permutation_nil_l in Hvs; congruence).
  assert (Hpos : (0 < length vs)%nat) by (destruct vs; [congruence|cbn; lia]).
  assert (Ht : 0 ≤ total).
  { assert (H0 : py_range (Z.of_nat (length vs)) !! 0%nat = Some 0).
    { unfold py_range. rewrite Nat2Z.id, list_lookup_fmap, lookup_seq_lt by lia. reflexivity. }
    destruct (Forall2_lookup_l _ _ _ _ _ Hsegs H0) as (seg & _ & v & _ & _ & Hw).
    unfold num_vi_corrupted in Hw.
    destruct (Z.eqb_spec 0 (Z.of_nat (length vs) - 1)) as [Heq|Hneq].
    - rewrite <- Heq in Hw. lia.
    - destruct (Z.lt_ge_cases total 0) as [Hlt|]; [|assumption].
      assert (total `div` Z.of_nat (length vs) < 0)
        by (apply Z.div_lt_upper_bound; lia). lia. }
  apply loop_segments_mask_row in Hsegs as Hrow.
  assert (Hsne : segs ≠ []).
  { intros ->. apply Forall2_length in Hsegs. rewrite length_py_range in Hsegs.
    cbn in Hsegs. lia. }
  step H as values Hvalues. cbn [app] in Hvalues.
  rewrite (array_ops_concat_fills mdt (Z.to_nat N) segs Hsne) in Hvalues.
  injection Hvalues as <-.
  unfold array_ops_reshape_flat in H. cbn [t_dtype t_rows] in H.
  step H as d0 Hd0. injection Hd0 as <-.
  step H as d1 Hd1. injection Hd1 as <-.
  apply lift_Ok_inv in H as [Hsp _].
  split; [exact Ht|]. exists vs. split; [exact Hvs|]. intros r Hr.
  apply sample_batch_sound in Hs as (rows & -> & Hrows_len & Hrows); [|exact sampler_ok].
  apply sparse_reorder_rows in Hsp as (Hperm & _ & _). rewrite Hperm.
  erewrite row_values_enum_row; [|exact Hidx| |lia].
  - rewrite lookup_replicate_2 by lia. cbn. rewrite Hrow. reflexivity.
  - apply Forall2_replicate_r; [exact Hrows_len|].
    eapply Forall_impl; [exact Hrows|]. intros row (Hlrow & _ & _). cbn.
    rewrite Hlrow, Hrow, length_mask_row by assumption. reflexivity.
Qed.

(** C7. With [k] mask values, every row of the tensor [sparse_random_mask]
    returns holds the [total_corrupted = int(density * M)] corrupted
    positions shared out among the (shuffled) values: [total_corrupted //
    k] for each of the first [k - 1], the remainder for the last, and
    these counts add up to [total_corrupted]. The function returns
    whenever the positions fit in a row and the values are numbers. *)
Theorem sparse_random_mask_allocation N M density mask_values dt seed total g :
  mask_values ≠ [] →
  int_of_product density M = Ok total →
  let k := Z.of_nat (length mask_values) in
  (∀ i, 0 ≤ i < k - 1 → num_vi_corrupted total k i = total `div` k) ∧
  num_vi_corrupted total k (k - 1) = total - total `div` k * (k - 1) ∧
  sum_Z (num_vi_corrupted total k <$> py_range k) = total ∧
  (∀ sp g',
     sparse_random_mask rng sampler shuffle [N; M] density mask_values dt seed g
       = Ok (sp, g') →
     ∃ vs, vs ≡ₚ mask_values ∧
       ∀ r, 0 ≤ r < N →
         row_values sp r ≡ₚ mask_row total vs ∧
         length (row_values sp r) = Z.to_nat total) ∧
  (0 ≤ N → 1 ≤ total ≤ M → (∃ mdt, dtype_of_list mask_values = Ok mdt) →
   ∃ sp g',
     sparse_random_mask rng sampler shuffle [N; M] density mask_values dt seed g
       = Ok (sp, g')).
Proof.
  intros Hne Hk k. split; [|split; [|split; [|split]]].
  - intros i Hi. apply num_vi_corrupted_first. lia.
  - apply num_vi_corrupted_last.
  - subst k. destruct mask_values as [|v vs]; [congruence|]. cbn [length].
    apply num_vi_corrupted_sum.
  - intros sp g' H.
    destruct (sparse_random_mask_rows _ _ _ _ _ _ _ _ _ _ Hne Hk H) as (Ht & vs & Hvs & Hrows).
    exists vs. split; [exact Hvs|]. intros r Hr. split; [apply Hrows; exact Hr|].
    rewrite (Hrows r Hr). apply length_mask_row; [exact Ht|].
    intros ->. apply Permutation_nil_l in Hvs. congruence.
  - intros HN Htot [mdt Hmdt].
    apply int_of_product_Ok in Hk as (p & Hp & Hk).
    destruct shuffle_ok as [Hsh_sound Hsh_total].
    destruct (Hsh_total mask_values seed g) as (vs & g1 & Hvs).
    pose proof (Hsh_sound _ _ _ _ _ Hvs) as Hperm.
    pose proof (Permutation_length Hperm) as Hlen.
    assert (Hvne : vs ≠ []) by (intros ->; apply Permutation_nil_l in Hperm; congruence).
    destruct (sample_batch_total sampler sampler_ok M total N true seed g1)
      as (rows & g2 & Hrows); [lia|].
    pose proof Hrows as Hsound.
    apply sample_batch_sound in Hsound as (rows' & Heq & Hrlen & Hall); [|exact sampler_ok].
    injection Heq as <-.
    destruct (value_tensors_loop_Ok (py_range (Z.of_nat (length vs))) mdt vs total
                (Z.of_nat (length vs)) N [] HN) as (ts & Hts).
    { apply Forall_forall. intros i Hi. unfold py_range in Hi.
      apply list_elem_of_fmap in Hi as (j & -> & Hj). apply elem_of_seq in Hj.
      split.
      - apply num_vi_corrupted_nonneg; [lia|]. destruct vs; [congruence|cbn; lia].
      - apply lookup_lt_is_Some. lia. }
    pose proof Hts as Hinv.
    apply value_tensors_loop_inv in Hinv as (_ & segs & -> & Hsegs).
    apply loop_segments_mask_row in Hsegs as Hrow.
    assert (Hsne : segs ≠ []).
    { intros ->. apply Forall2_length in Hsegs. rewrite length_py_range in Hsegs.
      destruct vs; [congruence|]. cbn in Hsegs. lia. }
    unfold sparse_random_mask.
    rewrite (M_bind_lift_Ok _ _ _ _ (list_getitem_1 N M)).
    rewrite (M_bind_lift_Ok _ _ _ _ Hp), (M_bind_lift_Ok _ _ _ _ Hk).
    rewrite (M_bind_lift_Ok _ _ _ _ Hmdt).
    rewrite (M_bind_Ok _ _ _ _ _ Hvs).
    rewrite (M_bind_lift_Ok _ _ _ _ (list_getitem_1 N M)).
    rewrite (M_bind_lift_Ok _ _ _ _ (list_getitem_0 N M)).
    rewrite (M_bind_Ok _ _ _ _ _ Hrows).
    rewrite (M_bind_lift_Ok _ _ _ _ (eq_refl : enum_row (Mat rows) = Ok _)).
    rewrite <- Hlen. rewrite (M_bind_lift_Ok _ _ _ _ Hts). cbn [app].
    rewrite (M_bind_lift_Ok _ _ _ _ (array_ops_concat_fills mdt (Z.to_nat N) segs Hsne)).
    unfold array_ops_reshape_flat. cbn [t_dtype t_rows].
    rewrite (M_bind_lift_Ok _ _ _ _ (list_getitem_0 N M)).
    rewrite (M_bind_lift_Ok _ _ _ _ (list_getitem_1 N M)).
    unfold sparse_reorder. cbn [sp_indices sp_values].
    assert (Hlens : length (concat (imap (fun (r : nat) (row : list Z) =>
                       (fun c : Z => (Z.of_nat r, c)) <$> row) rows))
                    = length (concat (replicate (Z.to_nat N) (concat segs)))).
    { rewrite (length_concat_imap _ rows (Z.to_nat total)).
      - rewrite Hrlen, Hrow.
        pose proof (length_mask_row total vs ltac:(lia) Hvne) as Hmr.
        clear -Hmr. induction (Z.to_nat N) as [|n IH]; [reflexivity|].
        cbn [replicate concat]. rewrite length_app, <- IH, Hmr. lia.
      - intros i row. apply length_fmap.
      - eapply Forall_impl; [exact Hall|]. intros row (Hlrow & _). exact Hlrow. }
    rewrite Hlens, Nat.eqb_refl. eexists _, _. reflexivity.
Qed.

End mask.

(** ** Sparse normal noise *)

Lemma ref_normal_contract : normal_contract ref_normal.
Proof.
  split.
  - intros n mean stddev dt seed g l g' H. injection H as <- <-. apply length_replicate.
  - intros n mean stddev dt seed g _. eexists _, _. reflexivity.
Qed.

Section normal.
Context {rng : Type}.
Variable sampler : list (list Z) → Z → Z → bool → Z → option Z → M rng (list Z).
Variable normal : Z → pyval → pyval → dtype → option Z → M rng (list pyval).
Hypothesis sampler_ok : sampler_contract sampler.
Hypothesis normal_ok : normal_contract normal.

(** C10, as the code has it. [sparse_random_normal] samples
    [max(int(density * M), 1)] entries per row, so the tensor it returns
    holds exactly [N * max(int(density * M), 1) >= N] values; it is
    non-empty whenever [N >= 1]. The function returns whenever the
    entries fit in a row. *)
Theorem sparse_random_normal_values N M density mean stddev dt seed k g :
  int_of_product density M = Ok k →
  (∀ sp g',
     sparse_random_normal rng sampler normal [N; M] density mean stddev dt seed g
       = Ok (sp, g') →
     Z.of_nat (length (sp_values sp)) = N * Z.max k 1 ∧
     N ≤ N * Z.max k 1 ∧
     (1 ≤ N → sp_values sp ≠ [])) ∧
  (0 ≤ N → Z.max k 1 ≤ M →
   ∃ sp g',
     sparse_random_normal rng sampler normal [N; M] density mean stddev dt seed g
       = Ok (sp, g')).
Proof.
  intros Hk. split.
  - intros sp g' H. unfold sparse_random_normal in H.
    step H as m Hm. injection Hm as <-.
    step H as p Hp. step H as k' Hk'.
    rewrite (int_of_product_inv _ _ _ _ Hk Hp) in Hk'. injection Hk' as <-.
    step H as mr Hmr. injection Hmr as <-.
    step H as b Hb. injection Hb as <-.
    step H as flat Hflat. step H as idx Hidx.
    step H as n Hn. injection Hn as <-.
    step H as shape Hshape. step H as values Hvalues.
    apply lift_Ok_inv in H as [Hsp _].
    unfold as_shape in Hshape.
    destruct (Z.ltb_spec (N * Z.max k 1) 0) as [|Hnn]; [discriminate|].
    injection Hshape as <-.
    apply normal_ok in Hvalues.
    apply sparse_reorder_rows in Hsp as (_ & Hlen & _). cbn [sp_values] in Hlen.
    assert (Hcount : Z.of_nat (length (sp_values sp)) = N * Z.max k 1)
      by (rewrite Hlen, Hvalues; lia).
    split; [exact Hcount|]. split; [nia|].
    intros HN Hnil. rewrite Hnil in Hcount. cbn in Hcount. nia.
  - intros HN HM.
    apply int_of_product_Ok in Hk as (p & Hp & Hk).
    destruct (sample_batch_total sampler sampler_ok M (Z.max k 1) N true seed g)
      as (rows & g1 & Hrows); [lia|].
    pose proof Hrows as Hsound.
    apply sample_batch_sound in Hsound as (rows' & Heq & Hrlen & Hall); [|exact sampler_ok].
    injection Heq as <-.
    destruct normal_ok as [Hn_sound Hn_total].
    destruct (Hn_total (N * Z.max k 1) mean stddev dt seed g1) as (vs & g2 & Hvs); [nia|].
    pose proof (Hn_sound _ _ _ _ _ _ _ _ Hvs) as Hvlen.
    unfold sparse_random_normal.
    rewrite (M_bind_lift_Ok _ _ _ _ (list_getitem_1 N M)).
    rewrite (M_bind_lift_Ok _ _ _ _ Hp), (M_bind_lift_Ok _ _ _ _ Hk).
    rewrite (M_bind_lift_Ok _ _ _ _ (list_getitem_1 N M)).
    rewrite (M_bind_lift_Ok _ _ _ _ (list_getitem_0 N M)).
    rewrite (M_bind_Ok _ _ _ _ _ Hrows).
    rewrite (M_bind_lift_Ok _ _ _ _ (eq_refl : enum_row (Mat rows) = Ok _)).
    rewrite (M_bind_lift_Ok _ _ _ _ (list_getitem_0 N M)).
    assert (Hshape : as_shape (N * Z.max k 1) = Ok (N * Z.max k 1)).
    { unfold as_shape. assert ((N * Z.max k 1 <? 0) = false) as ->
        by (apply Z.ltb_ge; nia). reflexivity. }
    rewrite (M_bind_lift_Ok _ _ _ _ Hshape).
    rewrite (M_bind_Ok _ _ _ _ _ Hvs).
    unfold sparse_reorder. cbn [sp_indices sp_values].
    assert (Hlens : length (concat (imap (fun (r : nat) (row : list Z) =>
                       (fun c : Z => (Z.of_nat r, c)) <$> row) rows)) = length vs).
    { rewrite (length_concat_imap _ rows (Z.to_nat (Z.max k 1))).
      - rewrite Hrlen, Hvlen. nia.
      - intros i row. apply length_fmap.
      - eapply Forall_impl; [exact Hall|]. intros row (Hlrow & _). exact Hlrow. }
    rewrite Hlens, Nat.eqb_refl. eexists _, _. reflexivity.
Qed.

End normal.

(** On an empty batch the tensor [sparse_random_normal] returns is empty,
    whatever the density. *)
Lemma sparse_random_normal_empty_batch :
  ¬ (∀ sp g',
       sparse_random_normal nat ref_sampler ref_normal [0; 10] zero_float zero_float (PyInt 1)
         float32 None 0%nat = Ok (sp, g') →
       sp_values sp ≠ []).
Proof.
  intros H.
  assert (E : sparse_random_normal nat ref_sampler ref_normal [0; 10] zero_float zero_float
                (PyInt 1) float32 None 0%nat
              = Ok (mkSparseTensor [] [] float32 [0; 10], 1%nat)) by (vm_compute; reflexivity).
  exact (H _ _ E eq_refl).
Qed.

Lemma sparse_random_normal_values_witness :
  int_of_product zero_float 10 = Ok 0 ∧
  ∃ sp g',
    sparse_random_normal nat ref_sampler ref_normal [3; 10] zero_float zero_float (PyInt 1)
      float32 None 0%nat = Ok (sp, g') ∧
    Z.of_nat (length (sp_values sp)) = 3 * Z.max 0 1 ∧
    sp_values sp ≠ [].
Proof.
  split; [reflexivity|].
  destruct (sparse_random_normal_values ref_sampler ref_normal ref_sampler_contract
              ref_normal_contract 3 10 zero_float zero_float (PyInt 1) float32 None 0 0%nat
              eq_refl) as [Hsound Htotal].
  destruct Htotal as (sp & g' & Hsp); [lia|lia|].
  exists sp, g'. split; [exact Hsp|].
  destruct (Hsound sp g' Hsp) as (Hcount & _ & Hne).
  split; [exact Hcount|]. apply Hne. lia.
Defined.


Lemma sparse_random_mask_allocation_witness :
  int_of_product (PyFloat (flt 1 (-1))) 10 = Ok 5 ∧
  num_vi_corrupted 5 3 0 = 1 ∧ num_vi_corrupted 5 3 1 = 1 ∧ num_vi_corrupted 5 3 2 = 3 ∧
  ∃ sp g',
    sparse_random_mask nat ref_sampler ref_shuffle [2; 10] (PyFloat (flt 1 (-1)))
      [PyInt 1; PyInt 2; PyInt 3] float32 None 0%nat = Ok (sp, g') ∧
    length (row_values sp 0) = 5%nat.
Proof.
  split; [reflexivity|]. do 3 (split; [reflexivity|]).
  destruct (sparse_random_mask_allocation ref_sampler ref_shuffle ref_sampler_contract
              ref_shuffle_contract 2 10 (PyFloat (flt 1 (-1))) [PyInt 1; PyInt 2; PyInt 3]
              float32 None 5 0%nat ltac:(discriminate) eq_refl)
    as (_ & _ & _ & Hsound & Htotal).
  destruct (Htotal ltac:(lia) ltac:(lia) (ex_intro _ int32 eq_refl)) as (sp & g' & Hsp).
  exists sp, g'. split; [exact Hsp|].
  destruct (Hsound _ _ Hsp) as (vs & _ & Hrows).
  destruct (Hrows 0 ltac:(lia)) as [_ Hlen]. exact Hlen.
Defined.

(** ** The functions at work on the reference generator *)

Example int_of_product_float_rounding :
  int_of_product (PyFloat (flt 3602879701896397 (-55))) 3 = Ok 0 ∧
  int_of_product (PyFloat (flt 1 (-1))) 5 = Ok 2 ∧
  int_of_product (PyInt 1) 7 = Ok 7.
Proof. repeat split; reflexivity. Qed.

Example sample_batch_on_reference :
  sample nat ref_sampler 5 3 (Some 2) true None 0%nat = Ok (Mat [[4; 3; 2]; [4; 3; 2]], 2%nat).
Proof. reflexivity. Qed.

Example salt_pepper_noise_on_reference :
  salt_pepper_noise nat ref_sampler [2; 4] (PyFloat (flt 1 (-1))) (PyInt 1) (PyInt (-1))
    None float32 0%nat
  = Ok (Some (mkSparseTensor [(0, 2); (0, 3); (1, 2); (1, 3)]
                [PyInt (-1); PyInt 1; PyInt (-1); PyInt 1] float32 [2; 4]), 2%nat).
Proof. vm_compute. reflexivity. Qed.

Example salt_pepper_noise_too_sparse :
  salt_pepper_noise nat ref_sampler [2; 3] (PyFloat (flt 1 (-1))) (PyInt 1) (PyInt (-1))
    None float32 0%nat = Ok (None, 0%nat).
Proof. reflexivity. Qed.

Example sparse_random_mask_on_reference :
  sparse_random_mask nat ref_sampler ref_shuffle [1; 10] (PyFloat (flt 1 (-1)))
    [PyInt 1; PyInt 2; PyInt 3] float32 None 0%nat
  = Ok (mkSparseTensor [(0, 5); (0, 6); (0, 7); (0, 8); (0, 9)]
          [PyInt 1; PyInt 1; PyInt 1; PyInt 2; PyInt 3] float32 [1; 10], 2%nat).
Proof. vm_compute. reflexivity. Qed.

Example sparse_random_normal_clamped :
  sparse_random_normal nat ref_sampler ref_normal [2; 10] zero_float zero_float (PyInt 1)
    float32 None 0%nat
  = Ok (mkSparseTensor [(0, 9); (1, 9)] [zero_float; zero_float] float32 [2; 10], 3%nat).
Proof. vm_compute. reflexivity. Qed.

(** * Further properties of the layers *)

Lemma is_dim_eq v : is_dim v → py_eq v v = true.
Proof. intros [-> | [z ->]]; cbn; [reflexivity | apply Z.eqb_refl]. Qed.

(** [Layer.__init__] accepts a [dense_shape] wide enough whose batch entry
    agrees with the one of the shape. *)
Lemma Layer_init_accepts (n d1 : Z) shape d0 s0 dt name :
  n ≤ d1 →
  getitem (self_shape (PyInt n) shape) 0 = Ok s0 →
  py_eq d0 s0 = true →
  Layer.__init__ (PyInt n) shape (PyList [d0; PyInt d1]) dt name
  = Ok (layer_object (PyInt n) shape (PyList [d0; PyInt d1]) dt name).
Proof.
  intros Hle Hs Heq. rewrite Layer_init_list.
  pose proof (getitem_list_nat [d0; PyInt d1] 1 _ eq_refl) as E1.
  change (Z.of_nat 1) with 1 in E1.
  pose proof (getitem_list_nat [d0; PyInt d1] 0 _ eq_refl) as E0.
  change (Z.of_nat 0) with 0 in E0.
  rewrite E1. cbn [mbind result_bind py_lt num_compare]. rewrite E0, Hs.
  destruct (Z.compare_spec d1 n); try lia; cbn [mbind result_bind];
    unfold py_ne; rewrite Heq; reflexivity.
Qed.

(** The placeholder of [Input] is built when its name, dtype and the two
    dimensions of its shape are acceptable. *)
Lemma array_ops_placeholder_Ok dt d0 (d1 : Z) (name : string) :
  valid_op_name name = true → is_Some (as_dtype dt) → static_dim d0 → 0 ≤ d1 →
  array_ops_placeholder dt (PyList [d0; PyInt d1]) (PyStr name)
  = Ok (PyOp "placeholder" [dt; PyList [d0; PyInt d1]; PyStr name]).
Proof.
  intros Hn [d Hd] Hd0 Hd1. unfold array_ops_placeholder.
  rewrite Hn, Hd. cbn [mbind result_bind as_dimensions as_dimension].
  assert (as_dimension d0 = Ok ()) as E.
  { destruct Hd0 as [-> | (z & -> & Hz)]; cbn [as_dimension]; [reflexivity|].
    destruct (Z.ltb_spec z 0); [lia | reflexivity]. }
  cbn [as_dimension] in E. rewrite E. cbn [mbind result_bind].
  destruct (Z.ltb_spec d1 0); [lia | reflexivity].
Qed.

(** The placeholder refuses a shape with a negative dimension. *)
Lemma array_ops_placeholder_negative dt d0 (d1 : Z) name :
  d1 < 0 ∨ (∃ b, d0 = PyInt b ∧ b < 0) →
  raises (array_ops_placeholder dt (PyList [d0; PyInt d1]) name).
Proof.
  intros Hneg. unfold array_ops_placeholder.
  destruct name as [| | |nm| | |]; cbn [mbind result_bind];
    try (eexists; reflexivity);
    try (destruct (valid_op_name nm); cbn [mbind result_bind]; [|eexists; reflexivity]);
    (destruct (as_dtype dt); cbn [mbind result_bind]; [|eexists; reflexivity]);
    cbn [as_dimensions];
    (destruct (as_dimension d0) as [[]|e] eqn:E0; cbn [mbind result_bind];
       [|eexists; reflexivity]);
    (destruct Hneg as [H1 | (b & -> & Hb)];
       [cbn [as_dimension]; destruct (Z.ltb_spec d1 0); [eexists; reflexivity | lia]
       |cbn [as_dimension] in E0; destruct (Z.ltb_spec b 0); [discriminate | lia]]).
Qed.

(** X1. Without [n_active], [Input] passes the shape validation of
    [Layer.__init__] whatever its arguments, so that only the placeholder
    decides: for a number of units and a batch size that are not negative, a
    dtype the framework knows and a name the graph accepts the layer is
    built, the placeholder and the shape metadata both having the shape
    [[batch_size, n_units]]; a negative number of units or batch size is
    refused. *)
Theorem Input_dense (n : Z) batch_size dt (name : string) :
  is_dim batch_size →
  (0 ≤ n → static_dim batch_size → is_Some (as_dtype dt) → valid_op_name name = true →
     ∃ self : pyobj,
       Input.__init__ (PyInt n) PyNone batch_size dt (PyStr name) = Ok self ∧
       self !! "n_units" = Some (PyInt n) ∧
       self !! "shape" = Some (PyList [batch_size; PyInt n]) ∧
       self !! "dense_sape" = Some (PyList [batch_size; PyInt n]) ∧
       self !! "y" = Some (PyOp "placeholder"
                             [dt; PyList [batch_size; PyInt n]; PyStr name])) ∧
  (n < 0 ∨ (∃ b, batch_size = PyInt b ∧ b < 0) →
     raises (Input.__init__ (PyInt n) PyNone batch_size dt (PyStr name))).
Proof.
  intros Hb.
  assert (Input.__init__ (PyInt n) PyNone batch_size dt (PyStr name)
          = (y ← array_ops_placeholder dt (PyList [batch_size; PyInt n]) (PyStr name);
             Ok (<["y" := y]> (layer_object (PyInt n) (PyList [batch_size; PyInt n])
                                 (PyList [batch_size; PyInt n]) dt (PyStr name))))) as E.
  { unfold Input.__init__. cbn [mbind result_bind].
    rewrite (Layer_init_accepts n n _ batch_size batch_size) by
      (try reflexivity; try lia; apply is_dim_eq; exact Hb).
    cbn [mbind result_bind]. unfold layer_object; cbn [self_shape].
    rewrite !(proj2 (getattr_Ok _ _ _)) by (by simplify_map_eq).
    reflexivity. }
  rewrite E. split.
  - intros Hn Hs Hdt Hname.
    rewrite (array_ops_placeholder_Ok dt batch_size n name Hname Hdt Hs Hn).
    cbn [mbind result_bind]. eexists. split; [reflexivity|].
    unfold layer_object; cbn [self_shape]. repeat split; by simplify_map_eq.
  - intros Hneg.
    destruct (array_ops_placeholder_negative dt batch_size n (PyStr name) Hneg) as [e ->].
    eexists. reflexivity.
Qed.

Lemma Input_dense_witness :
  (∃ self : pyobj,
     Input.__init__ (PyInt 3) PyNone PyNone (PyDType float32) (PyStr "input") = Ok self ∧
     self !! "shape" = Some (PyList [PyNone; PyInt 3]) ∧
     self !! "dense_sape" = Some (PyList [PyNone; PyInt 3])) ∧
  raises (Input.__init__ (PyInt 3) PyNone (PyInt (-1)) (PyDType float32) (PyStr "input")).
Proof.
  split.
  - destruct (Input_dense 3 PyNone (PyDType float32) "input" (or_introl eq_refl))
      as [H _].
    destruct H as (self & Hself & _ & Hs & Hd & _);
      [lia | left; reflexivity | exists float32; reflexivity | reflexivity |].
    exists self. auto.
  - apply (Input_dense 3 (PyInt (-1)) (PyDType float32) "input"
             (or_intror (ex_intro _ (-1) eq_refl))).
    right. exists (-1). split; [reflexivity | lia].
Defined.



(** X3. [SparseInput] never builds a layer: the conversion of
    [[batch_size, n_units]] refuses [None] (the default batch size), and the
    tensor it returns otherwise reaches the test
    [dense_shape[1] < n_units] of [Layer.__init__], whose truth value the
    framework refuses. *)
Theorem SparseInput_raises n_units n_active values batch_size dt name :
  raises (SparseInput.__init__ n_units n_active values batch_size dt name).
Proof.
  unfold SparseInput.__init__, convert_to_int64_tensor.
  destruct (forallb _ _); [|eexists; reflexivity].
  cbn [mbind result_bind]. unfold Layer.__init__.
  cbn [getitem mbind result_bind py_lt num_compare]. eexists. reflexivity.
Qed.

Section Linear_properties.
Variable get_shape : pyval → result pyval.
Variable init : pyval → result pyval.

(** X4. [Linear] never builds a layer when its [dtype] argument is a
    framework dtype, the default [float32] included: the dtype reaches
    [Layer.__init__] as [dense_shape], and [dense_shape[1]] is refused. *)
Theorem Linear_dtype_raises (layer : pyobj) n_units weights bias (d : dtype) name :
  raises (Linear__init__ get_shape init layer n_units weights bias (PyDType d) name).
Proof.
  unfold Linear__init__.
  destruct (Linear.shape layer n_units) as [shape|e]; [|eexists; reflexivity].
  cbn [mbind result_bind]. eexists. reflexivity.
Qed.

(** X5. Over an input that carries [sp_indices], [Linear] never builds a
    layer either: the sparse lookup is preceded by the call
    [getattr(layer, "sp_values", default=None)], which raises TypeError. *)
Theorem Linear_sparse_raises (layer : pyobj) n_units weights bias dt name :
  hasattr layer "sp_indices" = true →
  raises (Linear__init__ get_shape init layer n_units weights bias dt name).
Proof.
  intros Hsp. unfold Linear__init__. rewrite Hsp.
  destruct (Linear.shape layer n_units) as [shape|e]; [|eexists; reflexivity].
  cbn [mbind result_bind].
  destruct (Layer.__init__ _ _ _ _ _) as [self|e]; [|eexists; reflexivity].
  cbn [mbind result_bind].
  match goal with |- raises (?m ≫= _) => destruct m as [u|e]; [|eexists; reflexivity] end.
  cbn [mbind result_bind].
  match goal with |- raises (?m ≫= _) => destruct m as [self'|e]; [|eexists; reflexivity] end.
  cbn [mbind result_bind].
  destruct (getattr layer "sp_indices") as [i|e]; eexists; reflexivity.
Qed.

(** X6. A layer [Linear] does build is never named after its [name]
    argument: its name is ["layer"], its [dtype] attribute holds the [name]
    argument, and its input carried no sparse indices. *)
Theorem Linear_name_and_dtype (layer self : pyobj) n_units weights bias dt name :
  Linear__init__ get_shape init layer n_units weights bias dt name = Ok self →
  self !! "name" = Some (PyStr "layer") ∧
  self !! "dtype" = Some name ∧
  self !! "n_units" = Some n_units ∧
  hasattr layer "sp_indices" = false.
Proof.
  unfold Linear__init__. intros H.
  apply bind_Ok_inv in H as (shape & _ & H).
  apply bind_Ok_inv in H as (s0 & Hs0 & H). apply Layer_init_object in Hs0.
  apply bind_Ok_inv in H as (u & _ & H).
  apply bind_Ok_inv in H as (s1 & Hs1 & H).
  apply bind_Ok_inv in H as (s2 & Hs2 & H).
  apply bind_Ok_inv in H as (b & _ & H).
  assert (H1 : ∀ k, k ≠ "weights" → s1 !! k = s0 !! k).
  { intros k Hk. destruct weights; inv_bind Hs1; injection Hs1 as <-;
      by rewrite lookup_insert_ne. }
  destruct (hasattr layer "sp_indices") eqn:Hsp.
  { inv_bind Hs2. discriminate. }
  assert (H2 : ∀ k, k ≠ "y" → s2 !! k = s1 !! k).
  { intros k Hk. inv_bind Hs2. destruct (py_eq _ _); inv_bind Hs2; injection Hs2 as <-;
      by rewrite lookup_insert_ne. }
  assert (H3 : ∀ k, k ≠ "y" → k ≠ "bias" → self !! k = s2 !! k).
  { intros k Hy Hb. destruct b.
    - inv_bind H. injection H as <-. by rewrite !lookup_insert_ne.
    - injection H as <-. reflexivity. }
  rewrite !H3, !H2, !H1 by done. subst s0. unfold layer_object.
  repeat split; by simplify_map_eq.
Qed.

End Linear_properties.

Lemma Linear_sparse_raises_witness :
  hasattr exposed_sparse_layer "sp_indices" = true ∧
  raises (Linear__init__ ref_get_shape ref_init exposed_sparse_layer (PyInt 2) PyNone
            (PyInt 0) PyNone (PyStr "linear")).
Proof.
  split; [reflexivity|]. apply Linear_sparse_raises. reflexivity.
Defined.

Lemma Linear_name_and_dtype_witness :
  ∃ self : pyobj,
    Linear__init__ ref_get_shape ref_init exposed_layer (PyInt 2) PyNone (PyInt 0) PyNone
      (PyStr "linear") = Ok self ∧
    self !! "name" = Some (PyStr "layer") ∧
    self !! "dtype" = Some (PyStr "linear").
Proof.
  eexists. split; [reflexivity|].
  destruct (Linear_name_and_dtype ref_get_shape ref_init exposed_layer _ (PyInt 2) PyNone
              (PyInt 0) PyNone (PyStr "linear") eq_refl) as (Hn & Hd & _).
  split; [exact Hn|exact Hd].
Defined.

(** X7. [Bias] never builds a layer over an input whose [n_units] is an
    int: the pair [(layer.dtype, "<name>_<name>")] reaches
    [Layer.__init__] as [dense_shape], and its second entry, a string, is
    compared with [n_units]. *)
Theorem Bias_raises (str_of : pyval → string) (layer : pyobj) (n : Z) name :
  layer !! "n_units" = Some (PyInt n) →
  raises (Bias__init__ str_of layer name).
Proof.
  intros Hn. unfold Bias__init__.
  destruct (getattr layer "dtype") as [t|e]; [|eexists; reflexivity].
  cbn [mbind result_bind].
  destruct (getattr layer "name") as [nm|e]; [|eexists; reflexivity].
  cbn [mbind result_bind].
  rewrite (proj2 (getattr_Ok _ _ _) Hn). cbn [mbind result_bind].
  destruct (getattr layer "shape") as [s|e]; [|eexists; reflexivity].
  cbn [mbind result_bind]. rewrite Layer_init_list.
  pose proof (getitem_list_nat [t; format_pair str_of nm name] 1 _ eq_refl) as E1.
  change (Z.of_nat 1) with 1 in E1. rewrite E1.
  eexists. reflexivity.
Qed.

Lemma Bias_raises_witness :
  ∃ layer : pyobj,
    Input.__init__ (PyInt 3) PyNone PyNone (PyDType float32) (PyStr "input") = Ok layer ∧
    layer !! "n_units" = Some (PyInt 3) ∧
    raises (Bias__init__ ref_str_of layer (PyStr "bias")).
Proof.
  eexists. split; [reflexivity|]. split; [reflexivity|].
  apply (Bias_raises ref_str_of _ 3). reflexivity.
Defined.

(** On a layer built by [Input] the exception is the TypeError of the
    comparison. *)
Example Bias_on_Input :
  (layer ← Input.__init__ (PyInt 3) PyNone PyNone (PyDType float32) (PyStr "input");
   Bias__init__ ref_str_of layer (PyStr "bias"))
  = Raise (TypeError "'<' not supported between these instances").
Proof. reflexivity. Qed.

Section Merge_properties.
Variable merge_fn : list merge_arg → result pyval.

(** X8. [Merge] refuses fewer than two layers, and weights whose number
    differs from the number of layers, with an Exception raised before any
    layer is read. *)
Theorem Merge_argument_checks (layers : list pyobj) (weights : option (list pyval)) name :
  (length layers < 2)%nat ∨ (∃ w, weights = Some w ∧ length w ≠ length layers) →
  ∃ msg, Merge__init__ merge_fn layers weights name = Raise (Exception msg).
Proof.
  intros H. unfold Merge__init__.
  destruct (Nat.ltb_spec (length layers) 2) as [Hlt|Hge]; [eexists; reflexivity|].
  destruct H as [Hlt | (w & -> & Hne)]; [lia|].
  destruct (Nat.eqb_spec (length w) (length layers)); [contradiction|].
  eexists. reflexivity.
Qed.

Lemma weight_layers_output (weights : list pyval) (done : list merge_arg) (todo : list pyobj) :
  (∃ layer, layer ∈ todo ∧ layer !! "output" = None) →
  raises (weight_layers weights done todo).
Proof.
  revert done. induction todo as [|l todo IH]; intros done (layer & Hin & Hout).
  - apply elem_of_nil in Hin. destruct Hin.
  - cbn [weight_layers].
    destruct (list_getitem weights (length done)) as [w|e]; [|eexists; reflexivity].
    cbn [mbind result_bind].
    destruct (l !! "output") as [out|] eqn:Hl.
    + rewrite (proj2 (getattr_Ok _ _ _) Hl). cbn [mbind result_bind].
      destruct (math_ops_scalar_mul w out) as [t|e]; [|eexists; reflexivity].
      cbn [mbind result_bind]. apply IH. exists layer. split; [|exact Hout].
      apply elem_of_cons in Hin as [->|Hin]; [congruence|exact Hin].
    + rewrite (getattr_None _ _ Hl). eexists. reflexivity.
Qed.

(** X9. With weights, [Merge] reads the attribute [output] of every layer:
    it never builds a layer when one of them lacks it, as every layer of
    this module does (they expose [y]). *)
Theorem Merge_weights_need_output (layers : list pyobj) (w : list pyval) name :
  (∃ layer, layer ∈ layers ∧ layer !! "output" = None) →
  raises (Merge__init__ merge_fn layers (Some w) name).
Proof.
  intros Hout. unfold Merge__init__.
  destruct (length layers <? 2)%nat; [eexists; reflexivity|].
  destruct (negb _); [eexists; reflexivity|].
  repeat match goal with
  | |- raises (?m ≫= _) =>
      match m with
      | weight_layers _ _ _ => fail 1
      | _ => destruct m; [cbn [mbind result_bind]|eexists; reflexivity]
      end
  end.
  destruct (weight_layers_output w [] layers Hout) as [e ->]. eexists. reflexivity.
Qed.

End Merge_properties.

Lemma Merge_argument_checks_witness :
  (∃ msg, Merge__init__ ref_merge_fn [exposed_layer] None (PyStr "merge")
          = Raise (Exception msg)) ∧
  (∃ msg, Merge__init__ ref_merge_fn [exposed_layer; exposed_layer] (Some [PyInt 1])
            (PyStr "merge") = Raise (Exception msg)).
Proof.
  split.
  - apply Merge_argument_checks. left. cbn. lia.
  - apply Merge_argument_checks. right. exists [PyInt 1]. split; [reflexivity|]. cbn. lia.
Defined.

Lemma Merge_weights_need_output_witness :
  exposed_layer !! "output" = None ∧
  raises (Merge__init__ ref_merge_fn [exposed_layer; exposed_layer]
            (Some [PyInt 1; PyInt 2]) (PyStr "merge")).
Proof.
  split; [reflexivity|].
  apply Merge_weights_need_output. exists exposed_layer. split; [|reflexivity].
  apply elem_of_cons. left. reflexivity.
Defined.

(** On two layers that expose [dense_shape], the weighted merge stops at
    the read of [output]. *)
Example Merge_weighted_on_exposed_layers :
  Merge__init__ ref_merge_fn [exposed_layer; exposed_layer] (Some [PyInt 1; PyInt 2])
    (PyStr "merge") = Raise (AttributeError "output").
Proof. reflexivity. Qed.

(** What the call of [Layer.__init__] a wrapping layer starts with read
    and built, when it returned. *)
Lemma super_init_of_inv (layer self : pyobj) suffix :
  super_init_of layer suffix = Ok self →
  ∃ n s d t nm,
    layer !! "n_units" = Some n ∧ layer !! "shape" = Some s ∧
    layer !! "dense_shape" = Some d ∧ layer !! "dtype" = Some t ∧
    layer !! "name" = Some (PyStr nm) ∧
    self = layer_object n s (match d with PyNone => self_shape n s | _ => d end) t
             (PyStr (nm +:+ suffix)).
Proof.
  unfold super_init_of. intros H.
  apply bind_Ok_inv in H as (n & Hn & H). apply bind_Ok_inv in H as (s & Hs & H).
  apply bind_Ok_inv in H as (d & Hd & H). apply bind_Ok_inv in H as (t & Ht & H).
  apply bind_Ok_inv in H as (nm & Hnm & H). apply bind_Ok_inv in H as (nm' & Hnm' & H).
  apply getattr_Ok in Hn, Hs, Hd, Ht, Hnm.
  destruct nm as [| | |str| | |]; try discriminate. injection Hnm' as <-.
  apply Layer_init_object in H. exists n, s, d, t, str. auto 10.
Qed.

(** The layers the wrapping constructors return have [n_units] and [shape]
    but no [dense_shape]. *)
Lemma wrapper_result_attributes (layer w : pyobj) na sd seed mx mn :
  ToSparse.__init__ layer = Ok w ∨
  GaussianNoise.__init__ layer na sd seed = Ok w ∨
  SaltPepperNoise.__init__ layer na mx mn seed = Ok w →
  is_Some (w !! "n_units") ∧ is_Some (w !! "shape") ∧ w !! "dense_shape" = None.
Proof.
  intros [H | [H | H]].
  - unfold ToSparse.__init__ in H. apply bind_Ok_inv in H as (s0 & Hs0 & H).
    apply super_init_of_inv in Hs0 as (n & s & d & t & nm & _ & _ & _ & _ & _ & ->).
    inv_bind H. injection H as <-. unfold layer_object.
    repeat split; by simplify_map_eq.
  - unfold GaussianNoise.__init__ in H. apply bind_Ok_inv in H as (s0 & Hs0 & H).
    apply super_init_of_inv in Hs0 as (n & s & d & t & nm & _ & _ & _ & _ & _ & ->).
    destruct (py_eq na zero_float); inv_bind H; injection H as <-; unfold layer_object;
      repeat split; by simplify_map_eq.
  - unfold SaltPepperNoise.__init__ in H. apply bind_Ok_inv in H as (s0 & Hs0 & H).
    apply super_init_of_inv in Hs0 as (n & s & d & t & nm & _ & _ & _ & _ & _ & ->).
    destruct (py_eq na zero_float).
    + inv_bind H. injection H as <-. unfold layer_object. repeat split; by simplify_map_eq.
    + inv_bind H. destruct (hasattr layer "sp_indices").
      * inv_bind H. discriminate.
      * inv_bind H. destruct (py_eq _ _); injection H as <-; unfold layer_object;
          repeat split; by simplify_map_eq.
Qed.

(** X10. The wrapping layers do not stack: a layer returned by
    [ToSparse], [GaussianNoise] or [SaltPepperNoise] has no attribute
    [dense_shape], so wrapping it again raises AttributeError. *)
Theorem wrappers_do_not_stack (layer w : pyobj) na sd seed mx mn :
  ToSparse.__init__ layer = Ok w ∨
  GaussianNoise.__init__ layer na sd seed = Ok w ∨
  SaltPepperNoise.__init__ layer na mx mn seed = Ok w →
  ToSparse.__init__ w = Raise (AttributeError "dense_shape") ∧
  (∀ na' sd' seed',
     GaussianNoise.__init__ w na' sd' seed' = Raise (AttributeError "dense_shape")) ∧
  (∀ na' mx' mn' seed',
     SaltPepperNoise.__init__ w na' mx' mn' seed' = Raise (AttributeError "dense_shape")).
Proof.
  intros H. apply wrapper_result_attributes in H as (Hn & Hs & Hd).
  unfold ToSparse.__init__, GaussianNoise.__init__, SaltPepperNoise.__init__.
  rewrite !(super_init_of_no_dense_shape w _ Hn Hs Hd). repeat split.
Qed.

Lemma wrappers_do_not_stack_witness :
  ∃ w : pyobj,
    GaussianNoise.__init__ exposed_layer zero_float (PyFloat (flt 1 (-2))) PyNone = Ok w ∧
    ToSparse.__init__ w = Raise (AttributeError "dense_shape").
Proof.
  eexists. split; [reflexivity|].
  apply (wrappers_do_not_stack exposed_layer _ zero_float (PyFloat (flt 1 (-2))) PyNone
           PyNone PyNone).
  right. left. reflexivity.
Defined.

(** X11. A layer [ToSparse] builds carries the two results of [to_sparse]
    on the input's tensor and the input's name with the suffix [_sparse];
    its own [y] is [None]. *)
Theorem ToSparse_result (layer self : pyobj) :
  ToSparse.__init__ layer = Ok self →
  ∃ y nm,
    layer !! "y" = Some y ∧ layer !! "name" = Some (PyStr nm) ∧
    self !! "sp_indices" = Some (to_sparse y).1 ∧
    self !! "sp_values" = Some (to_sparse y).2 ∧
    self !! "name" = Some (PyStr (nm +:+ "_sparse")) ∧
    self !! "n_units" = layer !! "n_units" ∧
    self !! "y" = Some PyNone.
Proof.
  unfold ToSparse.__init__. intros H.
  apply bind_Ok_inv in H as (s0 & Hs0 & H).
  apply super_init_of_inv in Hs0 as (n & s & d & t & nm & Hn & _ & _ & _ & Hnm & ->).
  apply bind_Ok_inv in H as (y & Hy & H). apply getattr_Ok in Hy.
  cbn [to_sparse] in H. injection H as <-.
  exists y, nm. rewrite Hn. unfold layer_object. cbn [to_sparse fst snd].
  repeat split; try assumption; by simplify_map_eq.
Qed.

Lemma ToSparse_result_witness :
  ∃ self : pyobj,
    ToSparse.__init__ exposed_layer = Ok self ∧
    self !! "name" = Some (PyStr "input_sparse") ∧
    self !! "y" = Some PyNone.
Proof.
  eexists. split; [reflexivity|].
  destruct (ToSparse_result exposed_layer _ eq_refl)
    as (y & nm & _ & Hnm & _ & _ & Hname & _ & Hy).
  injection Hnm as <-. split; [exact Hname|exact Hy].
Defined.

(** X12. [SaltPepperNoise] never builds a noise tensor: the [y] of a layer
    it returns is the input's [y] when [noise_amount == 0.0], and [None]
    otherwise, the input then carrying no sparse indices. [max_value] and
    [min_value] have no effect. *)
Theorem SaltPepperNoise_outcomes (layer self : pyobj) na mx mn seed :
  SaltPepperNoise.__init__ layer na mx mn seed = Ok self →
  ((py_eq na zero_float = true ∧ self !! "y" = layer !! "y") ∨
   (py_eq na zero_float = false ∧ hasattr layer "sp_indices" = false ∧
    self !! "y" = Some PyNone)) ∧
  ∀ mx' mn', SaltPepperNoise.__init__ layer na mx' mn' seed = Ok self.
Proof.
  intros H. split; [|intros mx' mn'; exact H].
  destruct (py_eq na zero_float) eqn:Hz.
  - left. split; [reflexivity|]. eapply SaltPepperNoise_zero_identity; eassumption.
  - right. split; [reflexivity|].
    unfold SaltPepperNoise.__init__ in H. apply bind_Ok_inv in H as (s0 & Hs0 & H).
    apply super_init_of_y in Hs0. rewrite Hz in H. inv_bind H.
    destruct (hasattr layer "sp_indices").
    + inv_bind H. discriminate.
    + split; [reflexivity|]. inv_bind H.
      destruct (py_eq _ _); injection H as <-; by simplify_map_eq.
Qed.

Lemma SaltPepperNoise_outcomes_witness :
  ∃ self : pyobj,
    SaltPepperNoise.__init__ exposed_layer (PyFloat (flt 1 (-1))) (PyInt 1) (PyInt 0) PyNone
      = Ok self ∧
    self !! "y" = Some PyNone.
Proof.
  eexists. split; [reflexivity|].
  destruct (SaltPepperNoise_outcomes exposed_layer _ (PyFloat (flt 1 (-1))) (PyInt 1) (PyInt 0)
              PyNone eq_refl) as [[[Hz _] | (_ & _ & Hy)] _]; [discriminate|exact Hy].
Defined.

Lemma super_init_of_exposed (layer : pyobj) n b m nm y suffix :
  exposes layer n b m nm y →
  ∃ s t, layer !! "shape" = Some s ∧ layer !! "dtype" = Some t ∧
    super_init_of layer suffix
    = Ok (layer_object (PyInt n) s (PyList [b; PyInt m]) t (PyStr (nm +:+ suffix))).
Proof.
  intros (Hn & (s1 & Hs) & Hd & [t Ht] & Hnm & _ & Hb & Hle).
  exists (PyList [b; s1]), t. split; [exact Hs|]. split; [exact Ht|].
  unfold super_init_of.
  rewrite (proj2 (getattr_Ok _ _ _) Hn), (proj2 (getattr_Ok _ _ _) Hs),
    (proj2 (getattr_Ok _ _ _) Hd), (proj2 (getattr_Ok _ _ _) Ht),
    (proj2 (getattr_Ok _ _ _) Hnm).
  cbn [mbind result_bind py_add_str].
  apply (Layer_init_accepts n m _ b b); [exact Hle | reflexivity | apply is_dim_eq; exact Hb].
Qed.

(** X13. Over an input object that exposes [dense_shape], both noise
    layers at [noise_amount == 0.0] do build a layer: it hands the input's
    tensor through, is named after the input with the suffix [_noise], and
    keeps the input's shape metadata (under [dense_sape]). *)
Theorem zero_noise_on_exposed (layer : pyobj) n b m nm y na sd mx mn seed :
  exposes layer n b m nm y →
  py_eq na zero_float = true →
  (∃ self : pyobj,
     GaussianNoise.__init__ layer na sd seed = Ok self ∧
     self !! "y" = Some y ∧
     self !! "name" = Some (PyStr (nm +:+ "_noise")) ∧
     self !! "dense_sape" = Some (PyList [b; PyInt m])) ∧
  (∃ self : pyobj,
     SaltPepperNoise.__init__ layer na mx mn seed = Ok self ∧
     self !! "y" = Some y ∧
     self !! "name" = Some (PyStr (nm +:+ "_noise")) ∧
     self !! "dense_sape" = Some (PyList [b; PyInt m])).
Proof.
  intros Hex Hz.
  destruct (super_init_of_exposed layer n b m nm y "_noise" Hex) as (s & t & _ & _ & Hsuper).
  destruct Hex as (_ & _ & _ & _ & _ & Hy & _).
  unfold GaussianNoise.__init__, SaltPepperNoise.__init__.
  rewrite Hsuper, Hz. cbn [mbind result_bind].
  rewrite (proj2 (getattr_Ok _ _ _) Hy). cbn [mbind result_bind].
  split; eexists; (split; [reflexivity|]); unfold layer_object; repeat split;
    by simplify_map_eq.
Qed.

Lemma exposed_layer_exposes :
  exposes exposed_layer 4 PyNone 4 "input"
    (PyOp "placeholder" [PyDType float32; PyList [PyNone; PyInt 4]; PyStr "input"]).
Proof.
  unfold exposes. repeat split; try reflexivity; try lia.
  - eexists. reflexivity.
  - eexists. reflexivity.
  - left. reflexivity.
Qed.

Lemma zero_noise_on_exposed_witness :
  ∃ self : pyobj,
    GaussianNoise.__init__ exposed_layer zero_float (PyFloat (flt 1 (-2))) PyNone = Ok self ∧
    self !! "y" = exposed_layer !! "y" ∧
    self !! "name" = Some (PyStr "input_noise").
Proof.
  destruct (zero_noise_on_exposed exposed_layer 4 PyNone 4 "input" _ zero_float
              (PyFloat (flt 1 (-2))) PyNone PyNone PyNone exposed_layer_exposes eq_refl)
    as [(self & H & Hy & Hn & _) _].
  exists self. split; [exact H|]. split; [exact Hy|exact Hn].
Defined.

(** * Further properties of the sparse noise tensors *)

Section sampling_batch.
Context {rng : Type}.
Variable sampler : list (list Z) → Z → Z → bool → Z → option Z → M rng (list Z).
Hypothesis sampler_ok : sampler_contract sampler.

(** X14. With a batch size, [sample] ignores its arguments [unique] and
    [seed]: the rows are drawn without replacement even when the call says
    [unique=False]. *)
Theorem sample_batch_ignores_unique range_max num_sampled B unique seed g :
  sample rng sampler range_max num_sampled (Some B) unique seed g
    = sample rng sampler range_max num_sampled (Some B) true None g ∧
  ∀ t g',
    sample rng sampler range_max num_sampled (Some B) unique seed g = Ok (t, g') →
    ∃ rows, t = Mat rows ∧ length rows = Z.to_nat B ∧
            Forall (unique_row range_max num_sampled) rows.
Proof.
  split; [reflexivity|]. intros t g'. apply sample_batch_sound. exact sampler_ok.
Qed.

End sampling_batch.

Lemma sample_batch_ignores_unique_witness :
  ∃ rows g',
    sample nat ref_sampler 5 3 (Some 2) false (Some 7) 0%nat = Ok (Mat rows, g') ∧
    Forall (unique_row 5 3) rows.
Proof.
  eexists _, _. split; [reflexivity|].
  destruct (sample_batch_ignores_unique ref_sampler ref_sampler_contract 5 3 2 false (Some 7)
              0%nat) as [_ H].
  destruct (H _ _ eq_refl) as (rows & Heq & _ & Hrows).
  injection Heq as <-. exact Hrows.
Defined.

(** ** Indices of the tensors *)

#[global] Instance row_major_trans : Transitive row_major.
Proof. intros [a1 a2] [b1 b2] [c1 c2]. unfold row_major. cbn. lia. Qed.

#[global] Instance index_le_total : Total index_le.
Proof. intros [[a1 a2] u] [[b1 b2] v]. unfold index_le. cbn. lia. Qed.

Lemma unique_row_Permutation range_max num l1 l2 :
  l1 ≡ₚ l2 → unique_row range_max num l1 → unique_row range_max num l2.
Proof.
  intros Hp (Hlen & Hnd & Hall). unfold unique_row.
  rewrite <- Hp. auto.
Qed.

Lemma elem_of_tagged_rows (t : nat → Z) (rows : list (list Z)) (x : Z * Z) :
  x ∈ concat (imap (fun i row => (fun c => (t i, c)) <$> row) rows) →
  ∃ i row, rows !! i = Some row ∧ x.1 = t i ∧ x.2 ∈ row.
Proof.
  revert t. induction rows as [|row rows IH]; intros t Hx.
  - apply elem_of_nil in Hx. destruct Hx.
  - rewrite imap_cons in Hx. cbn [concat] in Hx. apply elem_of_app in Hx as [Hx|Hx].
    + apply list_elem_of_fmap in Hx as (c & -> & Hc). exists 0%nat, row. auto.
    + apply (IH (t ∘ S)) in Hx as (i & row' & Hi & Ht & Hc). exists (S i), row'. auto.
Qed.

Lemma NoDup_tagged_rows (t : nat → Z) (rows : list (list Z)) :
  Inj (=) (=) t → Forall NoDup rows →
  NoDup (concat (imap (fun i row => (fun c => (t i, c)) <$> row) rows)).
Proof.
  intros Ht Hrows. revert t Ht. induction Hrows as [|row rows Hrow _ IH]; intros t Ht.
  - constructor.
  - rewrite imap_cons. cbn [concat]. apply NoDup_app. split; [|split].
    + apply NoDup_fmap_2; [|exact Hrow]. intros c1 c2 Heq. congruence.
    + intros x Hx Hx'. apply list_elem_of_fmap in Hx as (c & -> & _).
      apply (elem_of_tagged_rows (t ∘ S)) in Hx' as (i & _ & _ & Heq & _).
      cbn in Heq. apply Ht in Heq. discriminate.
    + apply (IH (t ∘ S)). intros i j Hij. cbn in Hij. apply Ht in Hij. congruence.
Qed.

Lemma tagged_columns_filter (t : nat → Z) (r : Z) (rows : list (list Z)) :
  (filter (fun i : Z * Z => i.1 = r)
     (concat (imap (fun i row => (fun c => (t i, c)) <$> row) rows))).*2
  = concat (imap (fun i row => if decide (t i = r) then row else []) rows).
Proof.
  revert t. induction rows as [|row rows IH]; intros t; [reflexivity|].
  rewrite !imap_cons. cbn [concat]. rewrite filter_app, fmap_app. f_equal.
  - clear. induction row as [|c row IH]; [destruct (decide (t 0%nat = r)); reflexivity|].
    cbn [fmap list_fmap]. rewrite filter_cons. cbn [fst].
    destruct (decide (t 0%nat = r)); cbn [fmap list_fmap snd]; [f_equal|]; exact IH.
  - apply (IH (t ∘ S)).
Qed.

Lemma pick_no_columns (t : nat → Z) (r : Z) (rows : list (list Z)) :
  (∀ i, t i ≠ r) →
  concat (imap (fun i row => if decide (t i = r) then row else []) rows) = [].
Proof.
  revert t. induction rows as [|v rows IH]; intros t Ht; [reflexivity|].
  rewrite imap_cons. cbn [concat]. destruct (decide (t 0%nat = r)) as [Heq|_].
  - destruct (Ht _ Heq).
  - apply (IH (t ∘ S)). intros i. apply Ht.
Qed.

Lemma pick_one_columns (t : nat → Z) (r : Z) (j : nat) (rows : list (list Z)) :
  (∀ i, t i = r ↔ i = j) →
  concat (imap (fun i row => if decide (t i = r) then row else []) rows)
  = default [] (rows !! j).
Proof.
  revert t j. induction rows as [|v rows IH]; intros t j Ht.
  - destruct j; reflexivity.
  - rewrite imap_cons. cbn [concat]. destruct j as [|j].
    + destruct (decide (t 0%nat = r)) as [_|Hne]; [|destruct Hne; apply Ht; reflexivity].
      cbn. transitivity (v ++ []); [|apply app_nil_r]. f_equal.
      apply (pick_no_columns (t ∘ S)).
      intros i Hi. apply Ht in Hi. discriminate.
    + destruct (decide (t 0%nat = r)) as [Heq|_]; [apply Ht in Heq; discriminate|].
      cbn. apply (IH (t ∘ S)). intros i. cbn. rewrite Ht. lia.
Qed.

(** Reordering keeps the indices, up to their order, and puts them in
    row-major order. *)
Lemma sparse_reorder_indices sp0 sp :
  sparse_reorder sp0 = Ok sp →
  sp_indices sp ≡ₚ sp_indices sp0 ∧
  StronglySorted row_major (sp_indices sp) ∧
  length (sp_indices sp) = length (sp_values sp) ∧
  sp_dense_shape sp = sp_dense_shape sp0 ∧
  sp_dtype sp = sp_dtype sp0.
Proof.
  unfold sparse_reorder.
  destruct (Nat.eqb_spec (length (sp_indices sp0)) (length (sp_values sp0))) as [Hlen|];
    [|discriminate].
  intros H. injection H as <-. cbn [sp_indices sp_values sp_dense_shape sp_dtype].
  split; [|split; [|split; [|split]]]; try reflexivity.
  - rewrite merge_sort_Permutation, fst_zip by lia. reflexivity.
  - apply Sorted_StronglySorted; [apply _|].
    apply (Sorted_fmap fst index_le row_major); [intros x y Hxy; exact Hxy|].
    apply Sorted_merge_sort. apply _.
  - rewrite !length_fmap. reflexivity.
Qed.

(** The tensor built from the index pairs of [B] draws without replacement
    is well-formed. *)
Lemma reorder_enum_row_well_formed (rows : list (list Z)) idx vals dt (N M num : Z) sp :
  0 ≤ N →
  length rows = Z.to_nat N →
  Forall (unique_row M num) rows →
  enum_row (Mat rows) = Ok idx →
  sparse_reorder (mkSparseTensor idx vals dt [N; M]) = Ok sp →
  well_formed_sparse N M num sp.
Proof.
  intros HN Hlen Hrows Hidx Hsp. injection Hidx as <-.
  apply sparse_reorder_indices in Hsp as (Hperm & Hsorted & Hlens & Hds & _).
  cbn [sp_indices sp_dense_shape] in Hperm, Hds.
  unfold well_formed_sparse. split; [exact Hds|]. split; [exact Hlens|].
  split; [|split; [|split; [|exact Hsorted]]].
  - intros i Hi. rewrite Hperm in Hi.
    apply (elem_of_tagged_rows Z.of_nat) in Hi as (j & row & Hj & Hi1 & Hi2).
    pose proof (lookup_lt_Some _ _ _ Hj) as Hlt.
    rewrite Forall_forall in Hrows.
    destruct (Hrows row) as (_ & _ & Hall); [eapply list_elem_of_lookup_2; eassumption|].
    rewrite Forall_forall in Hall. specialize (Hall _ Hi2). lia.
  - rewrite Hperm. apply (NoDup_tagged_rows Z.of_nat); [intros i j; lia|].
    eapply Forall_impl; [exact Hrows|]. intros row (_ & Hnd & _). exact Hnd.
  - intros r Hr. unfold row_columns.
    assert (Hrow : ∃ row, rows !! Z.to_nat r = Some row) by (apply lookup_lt_is_Some; lia).
    destruct Hrow as [row Hrow].
    apply (unique_row_Permutation _ _ row).
    + rewrite Hperm, (tagged_columns_filter Z.of_nat r rows).
      rewrite (pick_one_columns Z.of_nat r (Z.to_nat r)) by (intros i; lia).
      rewrite Hrow. reflexivity.
    + rewrite Forall_forall in Hrows. apply Hrows.
      eapply list_elem_of_lookup_2. eassumption.
Qed.

Section tensors.
Context {rng : Type}.
Variable sampler : list (list Z) → Z → Z → bool → Z → option Z → M rng (list Z).
Variable shuffle : list pyval → option Z → M rng (list pyval).
Variable normal : Z → pyval → pyval → dtype → option Z → M rng (list pyval).

(** What a run of [sparse_random_normal] that returned went through. *)
Lemma sparse_random_normal_inv N M density mean stddev dt seed k g sp g' :
  int_of_product density M = Ok k →
  sparse_random_normal rng sampler normal [N; M] density mean stddev dt seed g = Ok (sp, g') →
  0 ≤ N ∧
  ∃ samples g1 idx vals,
    sample rng sampler M (Z.max k 1) (Some N) true seed g = Ok (samples, g1) ∧
    enum_row samples = Ok idx ∧
    normal (N * Z.max k 1) mean stddev dt seed g1 = Ok (vals, g') ∧
    sparse_reorder (mkSparseTensor idx vals dt [N; M]) = Ok sp.
Proof.
  intros Hk H. unfold sparse_random_normal in H.
  step H as m Hm. injection Hm as <-.
  step H as p Hp. step H as k' Hk'.
  rewrite (int_of_product_inv _ _ _ _ Hk Hp) in Hk'. injection Hk' as <-.
  step H as mr Hmr. injection Hmr as <-.
  step H as b Hb. injection Hb as <-.
  step H as flat Hflat. step H as idx Hidx.
  step H as n Hn. injection Hn as <-.
  step H as shape Hshape. step H as values Hvalues.
  apply lift_Ok_inv in H as [Hsp ->].
  unfold as_shape in Hshape.
  destruct (Z.ltb_spec (N * Z.max k 1) 0) as [|Hnn]; [discriminate|].
  injection Hshape as <-.
  split; [nia|]. eauto 10.
Qed.

(** What a run of [sparse_random_mask] that returned went through. *)
Lemma sparse_random_mask_inv N M density mask_values dt seed total g sp g' :
  int_of_product density M = Ok total →
  sparse_random_mask rng sampler shuffle [N; M] density mask_values dt seed g = Ok (sp, g') →
  mask_values ≠ [] ∧ 0 ≤ N ∧ 0 ≤ total ∧
  ∃ vs g1 samples idx vals,
    shuffle mask_values seed g = Ok (vs, g1) ∧
    sample rng sampler M total (Some N) true seed g1 = Ok (samples, g') ∧
    enum_row samples = Ok idx ∧
    sparse_reorder (mkSparseTensor idx vals dt [N; M]) = Ok sp.
Proof.
  intros Hk H. unfold sparse_random_mask in H.
  step H as m Hm. injection Hm as <-.
  step H as p Hp. step H as k' Hk'.
  rewrite (int_of_product_inv _ _ _ _ Hk Hp) in Hk'. injection Hk' as <-.
  step H as mdt Hmdt. step H as vs Hvs.
  step H as mr Hmr. injection Hmr as <-.
  step H as b Hb. injection Hb as <-.
  step H as samples Hs. step H as idx Hidx. step H as ts Hts.
  apply value_tensors_loop_inv in Hts as (HN & segs & -> & Hsegs).
  step H as values Hvalues. cbn [app] in Hvalues.
  assert (Hne : mask_values ≠ []).
  { intros ->. cbn in Hsegs. apply Forall2_nil_inv_l in Hsegs as ->. discriminate. }
  assert (Hpos : (0 < length mask_values)%nat) by (destruct mask_values; [congruence|cbn; lia]).
  assert (H0 : py_range (Z.of_nat (length mask_values)) !! 0%nat = Some 0).
  { unfold py_range. rewrite Nat2Z.id, list_lookup_fmap, lookup_seq_lt by lia. reflexivity. }
  destruct (Forall2_lookup_l _ _ _ _ _ Hsegs H0) as (seg & _ & v & _ & _ & Hw).
  assert (Ht : 0 ≤ total).
  { unfold num_vi_corrupted in Hw.
    destruct (Z.eqb_spec 0 (Z.of_nat (length mask_values) - 1)) as [Heq|Hneq].
    - rewrite <- Heq in Hw. lia.
    - destruct (Z.lt_ge_cases total 0) as [Hlt|]; [|assumption].
      assert (total `div` Z.of_nat (length mask_values) < 0)
        by (apply Z.div_lt_upper_bound; lia). lia. }
  assert (HN' : 0 ≤ N).
  { apply HN. intros Hnil. rewrite Hnil in H0. discriminate. }
  unfold array_ops_reshape_flat in H. cbn [t_dtype t_rows] in H.
  step H as d0 Hd0. injection Hd0 as <-.
  step H as d1 Hd1. injection Hd1 as <-.
  apply lift_Ok_inv in H as [Hsp ->].
  replace (if bool_decide (t_dtype values ≠ dt) then dt else t_dtype values) with dt in Hsp
    by (case_bool_decide as Hd; [reflexivity | destruct (decide (t_dtype values = dt));
          [congruence | contradiction]]).
  split; [exact Hne|]. split; [exact HN'|]. split; [exact Ht|]. eauto 10.
Qed.

(** X18. [sparse_random_mask] returns a tensor only for a non-empty list
    of mask values, a non-negative [int(density * M)] and a non-negative
    [N]: with no mask value there is nothing to concatenate, and a negative
    count or batch size is no dimension of a filled tensor. *)
Theorem sparse_random_mask_returns_only_if N M density mask_values dt seed total g sp g' :
  int_of_product density M = Ok total →
  sparse_random_mask rng sampler shuffle [N; M] density mask_values dt seed g = Ok (sp, g') →
  mask_values ≠ [] ∧ 0 ≤ total ∧ 0 ≤ N ∧ sp_dtype sp = dt.
Proof.
  intros Hk H.
  apply (sparse_random_mask_inv _ _ _ _ _ _ _ _ _ _ Hk) in H
    as (Hne & HN & Ht & vs & g1 & samples & idx & vals & _ & _ & _ & Hsp).
  apply sparse_reorder_indices in Hsp as (_ & _ & _ & _ & Hdt).
  auto.
Qed.

Hypothesis sampler_ok : sampler_contract sampler.

(** X15. The tensor [salt_pepper_noise] returns is well-formed: its dense
    shape is [[N, M]], every row holds [2 * (int(density * M) // 2)]
    entries (an odd count is rounded down) at pairwise distinct columns
    below [M], and the indices are in row-major order without
    duplicates. *)
Theorem salt_pepper_noise_well_formed N M density mx mn seed dt k g sp g' :
  int_of_product density M = Ok k →
  salt_pepper_noise rng sampler [N; M] density mx mn seed dt g = Ok (Some sp, g') →
  well_formed_sparse N M (2 * (k `div` 2)) sp.
Proof.
  intros Hk H.
  apply (salt_pepper_noise_inv _ _ _ _ _ _ _ _ _ _ _ _ Hk) in H
    as [(_ & Hnone & _) | (_ & HN & samples & idx & vdt & sp' & Hs & Hidx & Hsp & Heq)];
    [discriminate|].
  injection Heq as ->.
  apply sample_batch_sound in Hs as (rows & -> & Hlen & Hrows); [|exact sampler_ok].
  replace (2 * (k `div` 2)) with (k `div` 2 + k `div` 2) by lia.
  eapply reorder_enum_row_well_formed; eassumption.
Qed.

(** X16. The tensor [sparse_random_normal] returns is well-formed, with
    [max(int(density * M), 1)] entries in every row. *)
Theorem sparse_random_normal_well_formed N M density mean stddev dt seed k g sp g' :
  int_of_product density M = Ok k →
  sparse_random_normal rng sampler normal [N; M] density mean stddev dt seed g = Ok (sp, g') →
  well_formed_sparse N M (Z.max k 1) sp ∧ sp_dtype sp = dt.
Proof.
  intros Hk H.
  apply (sparse_random_normal_inv _ _ _ _ _ _ _ _ _ _ _ Hk) in H
    as (HN & samples & g1 & idx & vals & Hs & Hidx & _ & Hsp).
  apply sample_batch_sound in Hs as (rows & -> & Hlen & Hrows); [|exact sampler_ok].
  split; [eapply reorder_enum_row_well_formed; eassumption|].
  apply sparse_reorder_indices in Hsp as (_ & _ & _ & _ & Hdt). exact Hdt.
Qed.

(** X17. The tensor [sparse_random_mask] returns is well-formed, with
    [int(density * M)] entries in every row. *)
Theorem sparse_random_mask_well_formed N M density mask_values dt seed total g sp g' :
  int_of_product density M = Ok total →
  sparse_random_mask rng sampler shuffle [N; M] density mask_values dt seed g = Ok (sp, g') →
  well_formed_sparse N M total sp.
Proof.
  intros Hk H.
  apply (sparse_random_mask_inv _ _ _ _ _ _ _ _ _ _ Hk) in H
    as (_ & HN & _ & vs & g1 & samples & idx & vals & _ & Hs & Hidx & Hsp).
  apply sample_batch_sound in Hs as (rows & -> & Hlen & Hrows); [|exact sampler_ok].
  eapply reorder_enum_row_well_formed; eassumption.
Qed.

End tensors.

Lemma sparse_random_mask_returns_only_if_witness :
  ∃ sp g',
    sparse_random_mask nat ref_sampler ref_shuffle [2; 10] (PyFloat (flt 1 (-1)))
      [PyInt 1; PyInt 2; PyInt 3] float64 None 0%nat = Ok (sp, g') ∧
    sp_dtype sp = float64.
Proof.
  eexists _, _. split; [vm_compute; reflexivity|].
  eapply (sparse_random_mask_returns_only_if ref_sampler ref_shuffle 2 10
            (PyFloat (flt 1 (-1))) [PyInt 1; PyInt 2; PyInt 3] float64 None 5 0%nat);
    [reflexivity | vm_compute; reflexivity].
Defined.

Lemma salt_pepper_noise_well_formed_witness :
  ∃ sp g',
    salt_pepper_noise nat ref_sampler [2; 10] (PyFloat (flt 1 (-1))) (PyInt 1) (PyInt (-1))
      None float32 0%nat = Ok (Some sp, g') ∧
    well_formed_sparse 2 10 4 sp.
Proof.
  eexists _, _. split; [vm_compute; reflexivity|].
  eapply (salt_pepper_noise_well_formed ref_sampler ref_sampler_contract 2 10
            (PyFloat (flt 1 (-1))) (PyInt 1) (PyInt (-1)) None float32 5 0%nat);
    [reflexivity | vm_compute; reflexivity].
Defined.

Lemma sparse_random_normal_well_formed_witness :
  ∃ sp g',
    sparse_random_normal nat ref_sampler ref_normal [2; 10] zero_float zero_float (PyInt 1)
      float32 None 0%nat = Ok (sp, g') ∧
    well_formed_sparse 2 10 1 sp.
Proof.
  eexists _, _. split; [vm_compute; reflexivity|].
  eapply (sparse_random_normal_well_formed ref_sampler ref_normal ref_sampler_contract 2 10
            zero_float zero_float (PyInt 1) float32 None 0 0%nat);
    [reflexivity | vm_compute; reflexivity].
Defined.

Lemma sparse_random_mask_well_formed_witness :
  ∃ sp g',
    sparse_random_mask nat ref_sampler ref_shuffle [2; 10] (PyFloat (flt 1 (-1)))
      [PyInt 1; PyInt 2; PyInt 3] float32 None 0%nat = Ok (sp, g') ∧
    well_formed_sparse 2 10 5 sp.
Proof.
  eexists _, _. split; [vm_compute; reflexivity|].
  eapply (sparse_random_mask_well_formed ref_sampler ref_shuffle ref_sampler_contract 2 10
            (PyFloat (flt 1 (-1))) [PyInt 1; PyInt 2; PyInt 3] float32 None 5 0%nat);
    [reflexivity | vm_compute; reflexivity].
Defined.

(** X19. The share of the last mask value is [total // k + total % k]:
    for a non-negative total no share is negative, and the last one exceeds
    the others by the remainder, which is less than [k]. *)
Theorem num_vi_corrupted_last_share (total k i : Z) :
  1 ≤ k → 0 ≤ total → 0 ≤ i < k →
  num_vi_corrupted total k (k - 1) = total `div` k + total `mod` k ∧
  0 ≤ num_vi_corrupted total k i ≤ num_vi_corrupted total k (k - 1) ∧
  num_vi_corrupted total k (k - 1) - num_vi_corrupted total k i < k.
Proof.
  intros Hk Ht Hi.
  pose proof (Z.div_mod total k ltac:(lia)) as Hdm.
  pose proof (Z.mod_pos_bound total k ltac:(lia)) as Hmod.
  assert (0 ≤ total `div` k) by (apply Z.div_pos; lia).
  rewrite num_vi_corrupted_last.
  split; [nia|].
  unfold num_vi_corrupted. destruct (Z.eqb_spec i (k - 1)); nia.
Qed.

Lemma num_vi_corrupted_last_share_witness :
  num_vi_corrupted 11 4 3 = 11 `div` 4 + 11 `mod` 4 ∧
  0 ≤ num_vi_corrupted 11 4 1 ≤ num_vi_corrupted 11 4 3 ∧
  num_vi_corrupted 11 4 3 - num_vi_corrupted 11 4 1 < 4.
Proof. apply (num_vi_corrupted_last_share 11 4 1); lia. Defined.

Section rounding.
Context {rng : Type}.
Variable sampler : list (list Z) → Z → Z → bool → Z → option Z → M rng (list Z).
Variable normal : Z → pyval → pyval → dtype → option Z → M rng (list pyval).

(** X20. [salt_pepper_noise] depends on the density only through
    [int(density * M) // 2]: two densities with the same half count, both
    counts at least 2, give the same run. An odd count is served as the
    even count below it. *)
Theorem salt_pepper_noise_half_count N M d1 d2 mx mn seed dt k1 k2 g :
  int_of_product d1 M = Ok k1 → int_of_product d2 M = Ok k2 →
  2 ≤ k1 → 2 ≤ k2 → k1 `div` 2 = k2 `div` 2 →
  salt_pepper_noise rng sampler [N; M] d1 mx mn seed dt g
  = salt_pepper_noise rng sampler [N; M] d2 mx mn seed dt g.
Proof.
  intros H1 H2 Hk1 Hk2 Hhalf.
  apply int_of_product_Ok in H1 as (p1 & Hp1 & Hi1).
  apply int_of_product_Ok in H2 as (p2 & Hp2 & Hi2).
  unfold salt_pepper_noise.
  rewrite !(M_bind_lift_Ok _ _ _ _ (list_getitem_1 N M)).
  rewrite (M_bind_lift_Ok _ _ _ _ Hp1), (M_bind_lift_Ok _ _ _ _ Hi1).
  rewrite (M_bind_lift_Ok _ _ _ _ Hp2), (M_bind_lift_Ok _ _ _ _ Hi2).
  assert ((k1 <? 2) = false) as -> by (apply Z.ltb_ge; lia).
  assert ((k2 <? 2) = false) as -> by (apply Z.ltb_ge; lia).
  assert ((k1 =? 0) = false) as -> by (apply Z.eqb_neq; lia).
  assert ((k2 =? 0) = false) as -> by (apply Z.eqb_neq; lia).
  cbv zeta. rewrite Hhalf. reflexivity.
Qed.

(** X21. [sparse_random_normal] depends on the density only through
    [max(int(density * M), 1)]: every density that asks for at most one
    entry per row, 0 and negative ones included, gives the run of one entry
    per row. *)
Theorem sparse_random_normal_clamp N M d1 d2 mean stddev dt seed k1 k2 g :
  int_of_product d1 M = Ok k1 → int_of_product d2 M = Ok k2 →
  Z.max k1 1 = Z.max k2 1 →
  sparse_random_normal rng sampler normal [N; M] d1 mean stddev dt seed g
  = sparse_random_normal rng sampler normal [N; M] d2 mean stddev dt seed g.
Proof.
  intros H1 H2 Hmax.
  apply int_of_product_Ok in H1 as (p1 & Hp1 & Hi1).
  apply int_of_product_Ok in H2 as (p2 & Hp2 & Hi2).
  unfold sparse_random_normal.
  rewrite !(M_bind_lift_Ok _ _ _ _ (list_getitem_1 N M)).
  rewrite (M_bind_lift_Ok _ _ _ _ Hp1), (M_bind_lift_Ok _ _ _ _ Hi1).
  rewrite (M_bind_lift_Ok _ _ _ _ Hp2), (M_bind_lift_Ok _ _ _ _ Hi2).
  cbv zeta. rewrite Hmax. reflexivity.
Qed.

End rounding.

Lemma salt_pepper_noise_half_count_witness :
  int_of_product (PyFloat (flt 1 (-1))) 10 = Ok 5 ∧
  int_of_product (PyFloat (flt 3602879701896397 (-53))) 10 = Ok 4 ∧
  salt_pepper_noise nat ref_sampler [2; 10] (PyFloat (flt 1 (-1))) (PyInt 1) (PyInt (-1))
    None float32 0%nat
  = salt_pepper_noise nat ref_sampler [2; 10] (PyFloat (flt 3602879701896397 (-53)))
      (PyInt 1) (PyInt (-1)) None float32 0%nat.
Proof.
  split; [reflexivity|]. split; [reflexivity|].
  apply (salt_pepper_noise_half_count ref_sampler 2 10 (PyFloat (flt 1 (-1)))
           (PyFloat (flt 3602879701896397 (-53))) (PyInt 1) (PyInt (-1)) None float32 5 4);
    [reflexivity | reflexivity | lia | lia | reflexivity].
Defined.

Lemma sparse_random_normal_clamp_witness :
  sparse_random_normal nat ref_sampler ref_normal [2; 10] zero_float zero_float (PyInt 1)
    float32 None 0%nat
  = sparse_random_normal nat ref_sampler ref_normal [2; 10] (PyFloat (flt 3602879701896397 (-55)))
      zero_float (PyInt 1) float32 None 0%nat.
Proof.
  apply (sparse_random_normal_clamp ref_sampler ref_normal 2 10 zero_float
           (PyFloat (flt 3602879701896397 (-55))) zero_float (PyInt 1) float32 None 0 1);
    reflexivity.
Defined.
